(** * Verification of [calibrate_x_positions.py]

    A shallow embedding of the calibration utility of the rust-harp
    repository: the pointer sample recorder ([on_mouse_move]), the key
    handler that collects the left and right bounds ([on_key_press]) and
    the routine that averages the bounds and patches [src/main.rs]
    ([calculate_and_update_rust_file]).

    Python floats are IEEE 754 binary64 values, modelled by Rocq's primitive
    floats; Python lists are Rocq lists; the two list objects and the alias
    [self.current_list] are modelled by a reference naming which of the two
    lists is the current one. *)

From Stdlib Require Import ZArith List String Ascii Bool Lia Uint63 Floats.
Import ListNotations.

Set Warnings "-inexact-float".

Local Open Scope string_scope.
Local Open Scope Z_scope.

(** ** Python built-ins used by the script *)

(** The line feed character, written [\n] in the Python source. *)
Definition LF : string := String (ascii_of_nat 10) EmptyString.

(** [list] methods.  [append] adds at the tail, [insert(0, x)] at the head,
    and [pop()] without an argument removes and returns the LAST element
    ([None] stands for the [IndexError] raised on an empty list). *)
Module PyList.

Definition append {A} (l : list A) (x : A) : list A := l ++ [x].

Definition insert0 {A} (l : list A) (x : A) : list A := x :: l.

Fixpoint pop {A} (l : list A) : option (A * list A) :=
  match l with
  | [] => None
  | x :: t =>
      match pop t with
      | None => Some (x, [])
      | Some (y, t') => Some (y, x :: t')
      end
  end.

(** Truth value of a list in a condition: non-empty. *)
Definition truthy {A} (l : list A) : bool :=
  match l with [] => false | _ :: _ => true end.

Definition len {A} (l : list A) : Z := Z.of_nat (List.length l).

End PyList.

(** String formatting: [str(int)], and the float format specifications
    [.17e] and [.4f].  CPython renders a float by correctly rounding its exact
    binary value to the requested number of decimal digits, ties going to the
    even digit; the exact value of a finite non-zero binary64 number is
    [m * 2^e], as given by [Prim2SF]. *)
Module PyFormat.

Definition digit_char (d : Z) : ascii := ascii_of_nat (48 + Z.to_nat d).

(** The [w] low-order decimal digits of [n], most significant first. *)
Fixpoint digits_fixed (w : nat) (n : Z) : string :=
  match w with
  | O => EmptyString
  | S w' => digits_fixed w' (n / 10) ++ String (digit_char (n mod 10)) EmptyString
  end.

(** Number of decimal digits of [n] (1 for [n < 10]). *)
Fixpoint ndigits_aux (fuel : nat) (n : Z) : nat :=
  match fuel with
  | O => 1%nat
  | S f => if n <? 10 then 1%nat else S (ndigits_aux f (n / 10))
  end.

Definition ndigits (n : Z) : nat := ndigits_aux (Z.to_nat (Z.log2 n)) n.

(** [str(n)] for a non-negative integer. *)
Definition str_int (n : Z) : string := digits_fixed (ndigits n) n.

(** [num / den] rounded to the nearest integer, ties to even. *)
Definition round_half_even (num den : Z) : Z :=
  let q := num / den in
  match (2 * (num mod den)) ?= den with
  | Lt => q
  | Gt => q + 1
  | Eq => if Z.even q then q else q + 1
  end.

(** A positive binary value [m * 2^e] as a fraction of positive integers. *)
Definition numerator (m : positive) (e : Z) : Z := Z.pos m * 2 ^ Z.max e 0.
Definition denominator (e : Z) : Z := 2 ^ Z.max (- e) 0.

(** Coefficient and decimal exponent of the positive fraction [a / b] in
    scientific notation with [p] digits after the point: the integer [n] of
    [p + 1] digits and the exponent [k] such that [n * 10^(k - p)] is
    [a / b] correctly rounded to [p + 1] significant digits.  The fraction
    is first scaled by a power of ten, [10^shift], large enough for its
    integer part [a * 10^shift / b] to have more than [p] digits, [d] of
    them; the scaled fraction is then rounded at [10^(d - 1 - p)].  When the
    rounding carries to [10^(p+1)], the coefficient is [10^p] and the
    exponent is one more. *)
Definition sci_digits (a b : Z) (p : nat) : Z * Z :=
  let shift := Z.of_nat (ndigits b + p) in
  let scaled := a * 10 ^ shift in
  let d := Z.of_nat (ndigits (scaled / b)) in
  let n := round_half_even scaled (b * 10 ^ (d - 1 - Z.of_nat p)) in
  if n =? 10 ^ Z.of_nat (S p) then (10 ^ Z.of_nat p, d - shift)
  else (n, d - 1 - shift).

Definition sign_string (s : bool) : string := if s then "-" else "".

(** The exponent part: a sign and at least two digits. *)
Definition exponent_string (k : Z) : string :=
  (if k <? 0 then "-" else "+")
    ++ digits_fixed (Nat.max 2 (ndigits (Z.abs k))) (Z.abs k).

Definition coefficient_string (p : nat) (n : Z) : string :=
  digits_fixed 1 (n / 10 ^ Z.of_nat p) ++ "." ++ digits_fixed p n.

(** [format(x, '.<p>e')], for [p >= 1]. *)
Definition format_e (p : nat) (x : float) : string :=
  match Prim2SF x with
  | S754_nan => "nan"
  | S754_infinity s => sign_string s ++ "inf"
  | S754_zero s => sign_string s ++ coefficient_string p 0 ++ "e" ++ exponent_string 0
  | S754_finite s m e =>
      let '(n, k) := sci_digits (numerator m e) (denominator e) p in
      sign_string s ++ coefficient_string p n ++ "e" ++ exponent_string k
  end.

(** [format(x, '.<p>f')], for [p >= 1]. *)
Definition format_f (p : nat) (x : float) : string :=
  let fixed (s : bool) (n : Z) :=
    sign_string s ++ str_int (n / 10 ^ Z.of_nat p) ++ "." ++ digits_fixed p n in
  match Prim2SF x with
  | S754_nan => "nan"
  | S754_infinity s => sign_string s ++ "inf"
  | S754_zero s => fixed s 0
  | S754_finite s m e =>
      fixed s (round_half_even (numerator m e * 10 ^ Z.of_nat p) (denominator e))
  end.

(** The two specifications the script uses. *)
Definition format_17e : float -> string := format_e 17.
Definition format_4f : float -> string := format_f 4.

End PyFormat.

(** The one regular expression of the script, with the flags it is used
    with ([re.MULTILINE | re.DOTALL]):

      [^const UNSCALED_RELATIVE_X_POSITIONS: \&\[f32\] = \&\[(.*?)\];]

    [^] matches at the start of the text and after every line feed; the
    escaped characters are literals; [(.*?)] matches lazily any characters,
    line feeds included, so a match that starts at a given position ends at
    the first ["];"] that follows the declaration.  File contents are strings
    of bytes; the pattern is ASCII, so matching bytes or code points finds
    the same block. *)
Module PyRe.

Definition declaration : string :=
  "const UNSCALED_RELATIVE_X_POSITIONS: &[f32] = &[".

Definition terminator : string := "];".

(** [strip_prefix p s] is the rest of [s] after [p], when [s] starts
    with [p]. *)
Fixpoint strip_prefix (p s : string) : option string :=
  match p, s with
  | EmptyString, _ => Some s
  | String c p', String d s' =>
      if Ascii.eqb c d then strip_prefix p' s' else None
  | String _ _, EmptyString => None
  end.

(** Splits [s] at the first occurrence of the terminator: the text before
    it (the lazy group) and the text after it. *)
Fixpoint split_terminator (s : string) : option (string * string) :=
  match strip_prefix terminator s with
  | Some rest => Some (EmptyString, rest)
  | None =>
      match s with
      | EmptyString => None
      | String c s' =>
          match split_terminator s' with
          | Some (g, rest) => Some (String c g, rest)
          | None => None
          end
      end
  end.

(** A match of the pattern starting exactly at the head of [s]: the group
    and the text after the match. *)
Definition match_here (s : string) : option (string * string) :=
  match strip_prefix declaration s with
  | Some body => split_terminator body
  | None => None
  end.

(** [re.search]: the leftmost match, as (text before, group, text after).
    [bol] tells whether the head of [s] is at the beginning of a line. *)
Fixpoint search_from (bol : bool) (s : string) : option (string * string * string) :=
  match (if bol then match_here s else None) with
  | Some (g, rest) => Some (EmptyString, g, rest)
  | None =>
      match s with
      | EmptyString => None
      | String c s' =>
          match search_from (Ascii.eqb c (ascii_of_nat 10)) s' with
          | Some (before, g, rest) => Some (String c before, g, rest)
          | None => None
          end
      end
  end.

Definition search (s : string) : option (string * string * string) :=
  search_from true s.

(** [re.sub(pattern, repl, s, count=1)] for a replacement without
    backslashes (it is then inserted literally): the leftmost match is
    replaced, and a text without a match is returned as it is. *)
Definition sub_first (repl s : string) : string :=
  match search s with
  | Some (before, _, rest) => before ++ repl ++ rest
  | None => s
  end.

End PyRe.

(** ** The state of the program *)

(** The list object [self.current_list] refers to.  The source compares
    references ([self.current_list is self.left_bounds]) and mutates the list
    through the alias. *)
Inductive list_ref : Type := LeftBounds | RightBounds.

(** How writing the file back fails, when it does.  [open(path, "w")]
    empties the file as soon as it succeeds, before anything is written. *)
Inductive write_failure : Type :=
| OpenFails (err : string)
    (* [open(path, "w")] raises an exception [e], [str(e) = err]; the file
       is not touched *)
| WriteFails (err : string) (written : nat).
    (* [open(path, "w")] has emptied the file; then [f.write], or the flush
       on leaving the [with] block, raises [e], [str(e) = err], with the
       first [written] characters of the new content in the file *)

(** What the file system holds at the path of [src/main.rs]; nothing but
    the program changes it during the call. *)
Inductive file_state : Type :=
| Missing
    (* [open(path, "r")] raises [FileNotFoundError] *)
| Unreadable (err : string)
    (* opening or reading raises another exception [e], [str(e) = err] *)
| Present (content : string) (write_error : option write_failure).
    (* reading returns [content], the text after the translation of line
       ends; writing succeeds, or fails as [write_error] tells *)

(** The fields of [CalibrationUtility], followed by the part of the
    environment the program acts on: the lines printed, the target file, the
    contents left in it by each write so far (complete or interrupted), and
    whether the Tk main loop is still running. *)
Record State : Type := mkState {
  left_bounds : list float;
  right_bounds : list float;
  current_list : list_ref;
  mouse_x_percentage : float;
  status_label : string;
  current_x_label : string;
  stdout : list string;
  rust_file_path : string;
  rust_file : file_state;
  file_writes : list string;
  running : bool
}.

Definition set_left_bounds (s : State) (l : list float) : State :=
  mkState l (right_bounds s) (current_list s) (mouse_x_percentage s)
          (status_label s) (current_x_label s) (stdout s) (rust_file_path s)
          (rust_file s) (file_writes s) (running s).

Definition set_right_bounds (s : State) (l : list float) : State :=
  mkState (left_bounds s) l (current_list s) (mouse_x_percentage s)
          (status_label s) (current_x_label s) (stdout s) (rust_file_path s)
          (rust_file s) (file_writes s) (running s).

Definition set_current_list (s : State) (r : list_ref) : State :=
  mkState (left_bounds s) (right_bounds s) r (mouse_x_percentage s)
          (status_label s) (current_x_label s) (stdout s) (rust_file_path s)
          (rust_file s) (file_writes s) (running s).

Definition set_mouse_x_percentage (s : State) (x : float) : State :=
  mkState (left_bounds s) (right_bounds s) (current_list s) x
          (status_label s) (current_x_label s) (stdout s) (rust_file_path s)
          (rust_file s) (file_writes s) (running s).

(** [self.status_label.config(text=t)] *)
Definition set_status_label (s : State) (t : string) : State :=
  mkState (left_bounds s) (right_bounds s) (current_list s) (mouse_x_percentage s)
          t (current_x_label s) (stdout s) (rust_file_path s)
          (rust_file s) (file_writes s) (running s).

(** [self.current_x_label.config(text=t)] *)
Definition set_current_x_label (s : State) (t : string) : State :=
  mkState (left_bounds s) (right_bounds s) (current_list s) (mouse_x_percentage s)
          (status_label s) t (stdout s) (rust_file_path s)
          (rust_file s) (file_writes s) (running s).

(** [print(line)] *)
Definition print (s : State) (line : string) : State :=
  mkState (left_bounds s) (right_bounds s) (current_list s) (mouse_x_percentage s)
          (status_label s) (current_x_label s) (stdout s ++ [line]) (rust_file_path s)
          (rust_file s) (file_writes s) (running s).

(** [f.write(content)] on the file opened for writing: the file now holds
    [content]. *)
Definition write_file (s : State) (content : string) : State :=
  mkState (left_bounds s) (right_bounds s) (current_list s) (mouse_x_percentage s)
          (status_label s) (current_x_label s) (stdout s) (rust_file_path s)
          (Present content None) (file_writes s ++ [content]) (running s).

(** The text [str(e)] of the exception of a failed write. *)
Definition failure_text (f : write_failure) : string :=
  match f with
  | OpenFails err => err
  | WriteFails err _ => err
  end.

(** A write of [content] that fails: the file is as it was when opening it
    fails, and holds the characters written before the failure, none or
    some, when the failure comes after the file has been emptied. *)
Definition fail_write (s : State) (content : string) (f : write_failure) : State :=
  match f with
  | OpenFails _ => s
  | WriteFails _ written =>
      mkState (left_bounds s) (right_bounds s) (current_list s) (mouse_x_percentage s)
              (status_label s) (current_x_label s) (stdout s) (rust_file_path s)
              (Present (substring 0 written content) (Some f))
              (file_writes s ++ [substring 0 written content]) (running s)
  end.

(** [self.master.quit()] *)
Definition master_quit (s : State) : State :=
  mkState (left_bounds s) (right_bounds s) (current_list s) (mouse_x_percentage s)
          (status_label s) (current_x_label s) (stdout s) (rust_file_path s)
          (rust_file s) (file_writes s) false.

(** The list behind the alias, and its replacement by a mutated list. *)
Definition get_current (s : State) : list float :=
  match current_list s with
  | LeftBounds => left_bounds s
  | RightBounds => right_bounds s
  end.

Definition set_current (s : State) (l : list float) : State :=
  match current_list s with
  | LeftBounds => set_left_bounds s l
  | RightBounds => set_right_bounds s l
  end.

(** ** The program *)

Import PyFormat.

(** [a / b] on two Python integers: the quotient correctly rounded to
    binary64.  Integers below [2^53] in magnitude, as pixel coordinates are,
    convert exactly, and the binary64 division of the converted operands is
    that correctly rounded quotient. *)
Definition float_of_int (z : Z) : float :=
  if z <? 0 then PrimFloat.opp (PrimFloat.of_uint63 (Uint63.of_Z (- z)))
  else PrimFloat.of_uint63 (Uint63.of_Z z).

Definition int_truediv (a b : Z) : float :=
  PrimFloat.div (float_of_int a) (float_of_int b).

(** The events the window delivers: a key press with its [keysym], and a
    pointer motion with [event.x] and the width [winfo_width()] the window
    has at that time. *)
Inductive event : Type :=
| KeyPress (keysym : string)
| Motion (x : Z) (winfo_width : Z).

(** [CalibrationUtility.__init__], for a target file at [path] in state [f]. *)
Definition init (path : string) (f : file_state) : State :=
  mkState [] [] LeftBounds 0%float
          "Collecting Left Bounds" "Current X: 0.0000"
          [] path f [] true.

(** [on_mouse_move] *)
Definition on_mouse_move (s : State) (x winfo_width : Z) : State :=
  if winfo_width >? 0 then
    let s := set_mouse_x_percentage s (int_truediv x winfo_width) in
    set_current_x_label s ("Current X: " ++ format_4f (mouse_x_percentage s))
  else s.

(** The averages computed by the loop over [zip(left_bounds, right_bounds)]. *)
Definition final_x_positions (left right : list float) : list float :=
  map (fun '(l, r) => PrimFloat.div (PrimFloat.add l r) 2%float) (combine left right).

(** The text of the Rust array built from the averages. *)
Definition rust_array_string (positions : list float) : string :=
  fold_left (fun acc pos => acc ++ "    " ++ format_17e pos ++ "," ++ LF)
            positions
            ("const UNSCALED_RELATIVE_X_POSITIONS: &[f32] = &[" ++ LF)
  ++ "];".

Definition mismatch_message : string :=
  "Error: Mismatched number of bounds collected.".

Definition block_header : string :=
  LF ++ "--- New UNSCALED_RELATIVE_X_POSITIONS for src/main.rs ---".

(** The line of dashes printed after the block. *)
Definition dash_line : string :=
  "-----------------------------------------------------------".

Definition block_not_found_message : string :=
  "Error: UNSCALED_RELATIVE_X_POSITIONS block not found in src/main.rs. Please update manually.".

(** [calculate_and_update_rust_file] *)
Definition calculate_and_update_rust_file (s : State) : State :=
  if negb (PyList.len (left_bounds s) =? PyList.len (right_bounds s)) then
    print s mismatch_message
  else
    let block := rust_array_string (final_x_positions (left_bounds s) (right_bounds s)) in
    let s := print s block_header in
    let s := print s block in
    let s := print s dash_line in
    match rust_file s with
    | Missing =>
        print s ("Error: src/main.rs not found at " ++ rust_file_path s ++ ".")
    | Unreadable err =>
        print s ("Error updating src/main.rs: " ++ err)
    | Present original_content write_error =>
        match PyRe.search original_content with
        | Some _ =>
            let new_content := PyRe.sub_first block original_content in
            match write_error with
            | None =>
                let s := write_file s new_content in
                print s "src/main.rs updated successfully."
            | Some failure =>
                let s := fail_write s new_content failure in
                print s ("Error updating src/main.rs: " ++ failure_text failure)
            end
        | None => print s block_not_found_message
        end
    end.

Definition is_left (r : list_ref) : bool :=
  match r with LeftBounds => true | RightBounds => false end.

Definition is_right (r : list_ref) : bool :=
  match r with LeftBounds => false | RightBounds => true end.

Definition right_status (s : State) : string :=
  "Collecting Right Bounds (" ++ str_int (PyList.len (right_bounds s)) ++ "/"
    ++ str_int (PyList.len (left_bounds s)) ++ ")".

Definition left_status (s : State) : string :=
  "Collecting Left Bounds (" ++ str_int (PyList.len (left_bounds s)) ++ ")".

(** [on_key_press] *)
Definition on_key_press (s : State) (keysym : string) : State :=
  if String.eqb keysym "space" then
    if is_left (current_list s) then
      let s := set_current s (PyList.append (get_current s) (mouse_x_percentage s)) in
      let s := set_status_label s (left_status s) in
      print s ("Added left bound: " ++ format_17e (mouse_x_percentage s))
    else if is_right (current_list s)
            && (PyList.len (right_bounds s) <? PyList.len (left_bounds s)) then
      let s := set_current s (PyList.insert0 (get_current s) (mouse_x_percentage s)) in
      let s := set_status_label s (right_status s) in
      let s := print s ("Added right bound: " ++ format_17e (mouse_x_percentage s)) in
      if PyList.len (right_bounds s) =? PyList.len (left_bounds s) then
        let s := print s "Right bounds collection complete." in
        let s := set_status_label s "Right bounds collection complete." in
        let s := calculate_and_update_rust_file s in
        master_quit s
      else s
    else s
  else if String.eqb keysym "BackSpace" then
    if PyList.truthy (get_current s) && (PyList.len (get_current s) >? 0) then
      match PyList.pop (get_current s) with
      | Some (removed_value, l) =>
          let s := set_current s l in
          if is_left (current_list s) then
            let s := set_status_label s (left_status s) in
            print s ("Removed left bound: " ++ format_17e removed_value)
          else
            let s := set_status_label s (right_status s) in
            print s ("Removed right bound: " ++ format_17e removed_value)
      | None => s (* [IndexError]: excluded by the guard *)
      end
    else s
  else if String.eqb keysym "Return" then
    if is_left (current_list s) then
      let s := set_current_list s RightBounds in
      let s := set_status_label s (right_status s) in
      print s "Switched to collecting right bounds."
    else s
  else s.

(** The bindings made in [__init__]. *)
Definition dispatch (s : State) (e : event) : State :=
  match e with
  | KeyPress keysym => on_key_press s keysym
  | Motion x w => on_mouse_move s x w
  end.

(** [root.mainloop()]: events are handled one after the other until
    [master.quit()] has been called. *)
Fixpoint mainloop (s : State) (events : list event) : State :=
  match events with
  | [] => s
  | e :: rest => if running s then mainloop (dispatch s e) rest else s
  end.

(** The three logical keys. *)
Definition Confirm : event := KeyPress "space".
Definition Undo : event := KeyPress "BackSpace".
Definition NextPhase : event := KeyPress "Return".

(** ** Vocabulary of the properties *)

(** *** Invariants of the collection *)

(** The right bounds never outnumber the left bounds, and stay empty while
    the left bounds are being collected. *)
Definition collection_invariant (s : State) : Prop :=
  (List.length (right_bounds s) <= List.length (left_bounds s))%nat
  /\ (current_list s = LeftBounds -> right_bounds s = []).

(** The lines by which a call of the patcher shows on the output: it prints
    either the mismatch message or the header of the block, before anything
    else. *)
Definition patcher_mark (line : string) : Prop :=
  line = mismatch_message \/ line = block_header.

(** What a key press does to the output and the file: either it calls the
    patcher, on a state with as many left bounds as right bounds and at
    least one, and quits; or it prints no mark of the patcher and leaves the
    file and the main loop alone. *)
Definition calls_patcher (s s' : State) : Prop :=
  exists s1 lines,
    s' = master_quit (calculate_and_update_rust_file s1)
    /\ List.length (left_bounds s1) = List.length (right_bounds s1)
    /\ (0 < List.length (left_bounds s1))%nat
    /\ rust_file s1 = rust_file s
    /\ file_writes s1 = file_writes s
    /\ stdout s1 = (stdout s ++ lines)%list
    /\ Forall (fun l => ~ patcher_mark l) lines.

Definition no_patcher_call (s s' : State) : Prop :=
  running s' = running s
  /\ rust_file s' = rust_file s
  /\ file_writes s' = file_writes s
  /\ exists lines,
       stdout s' = (stdout s ++ lines)%list
       /\ Forall (fun l => ~ patcher_mark l) lines.

(** The output never shows the mismatch message; it shows the header of the
    block only once the main loop has been quit; and the loop is quit only
    with as many left bounds as right bounds, and at least one. *)
Definition patcher_invariant (s : State) : Prop :=
  ~ In mismatch_message (stdout s)
  /\ (running s = true -> ~ In block_header (stdout s))
  /\ (running s = false ->
      List.length (left_bounds s) = List.length (right_bounds s)
      /\ (0 < List.length (left_bounds s))%nat).

(** With no left bound and the right bounds selected, no event does anything
    but move the sample. *)
Definition idle (s : State) : Prop :=
  current_list s = RightBounds /\ left_bounds s = [] /\ right_bounds s = [].

(** *** The order of the right bounds *)

(** Strictly increasing, and strictly decreasing, for the order of floats. *)
Fixpoint increasing (l : list float) : bool :=
  match l with
  | a :: (b :: _) as t => PrimFloat.ltb a b && increasing t
  | _ => true
  end.

Fixpoint decreasing (l : list float) : bool :=
  match l with
  | a :: (b :: _) as t => PrimFloat.ltb b a && decreasing t
  | _ => true
  end.

(** The operator moves the pointer to [x] of [w] pixels and presses
    Confirm, for each [(x, w)] in turn; and the samples so confirmed. *)
Definition confirm_events (points : list (Z * Z)) : list event :=
  flat_map (fun '(x, w) => [Motion x w; Confirm]) points.

Definition confirmed_samples (points : list (Z * Z)) : list float :=
  map (fun '(x, w) => int_truediv x w) points.

(** *** Matches of the pattern *)

(** A match of the pattern in [content]: the declaration at the start of a
    line, then any text, then the terminator. *)
Definition at_line_start (before : string) : Prop :=
  before = "" \/ exists b, before = b ++ LF.

Definition pattern_match (content before group rest : string) : Prop :=
  content = before ++ PyRe.declaration ++ group ++ PyRe.terminator ++ rest
  /\ at_line_start before.

Definition contains_match (content : string) : Prop :=
  exists before group rest, pattern_match content before group rest.

(** *** The block and the printed form of a float *)

(** The opening line of the block. *)
Definition array_open : string :=
  "const UNSCALED_RELATIVE_X_POSITIONS: &[f32] = &[" ++ LF.

(** The line of the block for one average, and the concatenation of a list
    of strings. *)
Definition array_line (pos : float) : string :=
  "    " ++ format_17e pos ++ "," ++ LF.

Fixpoint concat_strings (l : list string) : string :=
  match l with
  | [] => ""
  | x :: t => x ++ concat_strings t
  end.

(** A reader of numbers in scientific notation, [scientific p]: an optional
    minus sign, one digit, a point, [p] digits, the letter [e], a sign and at
    least two digits. *)
Definition is_digit (c : ascii) : bool :=
  let n := nat_of_ascii c in ((48 <=? n) && (n <=? 57))%nat.

Fixpoint all_digits (s : string) : bool :=
  match s with
  | EmptyString => true
  | String c r => is_digit c && all_digits r
  end.




(** The significant digits of a printed number: the digits of its
    coefficient from the first non-zero digit on. *)
Fixpoint count_digits (s : string) : nat :=
  match s with
  | EmptyString => O
  | String c r => if is_digit c then S (count_digits r) else count_digits r
  end.




(** *** The displays *)

(** The readout shows the current sample, to four decimals. *)
Definition readout_in_sync (s : State) : Prop :=
  current_x_label s = "Current X: " ++ format_4f (mouse_x_percentage s).

(** The status line shows the phase and the current counts: the left count
    while the left bounds are collected (or the initial text, before any
    left bound was added or removed), the right and left counts while the
    right bounds are collected, and the completion message once the loop
    has been quit. *)
Definition status_in_sync (s : State) : Prop :=
  if running s then
    match current_list s with
    | LeftBounds =>
        status_label s = left_status s
        \/ (left_bounds s = [] /\ status_label s = "Collecting Left Bounds")
    | RightBounds => status_label s = right_status s
    end
  else status_label s = "Right bounds collection complete.".

(** *** Characters of a text *)

(** [mem_char c s]: the character [c] occurs in [s]; [chars_in a s]: every
    character of [s] occurs in [a]. *)
Fixpoint mem_char (c : ascii) (s : string) : bool :=
  match s with
  | EmptyString => false
  | String d r => Ascii.eqb c d || mem_char c r
  end.

Fixpoint chars_in (alphabet s : string) : bool :=
  match s with
  | EmptyString => true
  | String c r => mem_char c alphabet && chars_in alphabet r
  end.

(** The characters [.17e] may print: digits, the point, the exponent letter,
    the signs, and the letters of [nan] and [inf]. *)
Definition format_alphabet : string := "0123456789.e+-nanif".

(** *** Sessions *)

(** [n] presses of the Undo key. *)
Definition undo_events (n : nat) : list event := repeat Undo n.

(** While the loop runs and the right bounds are collected, either there is
    no left bound or the right bounds are fewer than the left bounds; once
    the loop is quit, the right bounds are selected and are as many as the
    left bounds, at least one. *)
Definition completion_invariant (s : State) : Prop :=
  if running s then
    current_list s = RightBounds ->
    left_bounds s = []
    \/ (List.length (right_bounds s) < List.length (left_bounds s))%nat
  else
    current_list s = RightBounds
    /\ List.length (left_bounds s) = List.length (right_bounds s)
    /\ (0 < List.length (left_bounds s))%nat.

(** Both lists full, and a target file holding an empty array between two
    other lines. *)
Definition full_with_declaration : State :=
  mkState [0.125%float; 0.5%float] [0.25%float; 0.75%float] RightBounds 0.25%float
          "" "" [] "src/main.rs"
          (Present ("// strings" ++ LF
                    ++ "const UNSCALED_RELATIVE_X_POSITIONS: &[f32] = &[];" ++ LF
                    ++ "fn main() {}") None)
          [] true.

(** The backslash, the only character [re.sub] treats specially in a
    replacement, and the closing bracket, which starts the terminator. *)
Definition backslash : ascii := ascii_of_nat 92.

Definition closing_bracket : ascii := "]".

(** The characters of a line of the block: those of a number, the
    indentation, the comma and the line feed. *)
Definition line_alphabet : string := format_alphabet ++ " ," ++ LF.

(** The message that closes the report of the patcher, according to what
    the file system holds at the path of the target file. *)
Definition closing_message (path : string) (f : file_state) : string :=
  match f with
  | Missing => "Error: src/main.rs not found at " ++ path ++ "."
  | Unreadable err => "Error updating src/main.rs: " ++ err
  | Present content write_error =>
      match PyRe.search content, write_error with
      | None, _ => block_not_found_message
      | Some _, Some failure => "Error updating src/main.rs: " ++ failure_text failure
      | Some _, None => "src/main.rs updated successfully."
      end
  end.

(** A value recorded during the events: the initial sample 0.0, or the
    sample of one of the pointer motions, in a window with a width. *)
Definition recorded (events : list event) (v : float) : Prop :=
  v = 0%float
  \/ exists x w, In (Motion x w) events /\ 0 < w /\ v = int_truediv x w.

Definition all_recorded (events : list event) (s : State) : Prop :=
  recorded events (mouse_x_percentage s)
  /\ Forall (recorded events) (left_bounds s)
  /\ Forall (recorded events) (right_bounds s).

(** *** Sample sessions *)

(** Two left bounds collected (pointer at 80 and 400 of 800 pixels), then
    the switch to the right bounds. *)
Definition two_left_then_switch : State :=
  mainloop (init "src/main.rs" Missing)
           [Motion 80 800; Confirm; Motion 400 800; Confirm; NextPhase].

(** A state with both lists full, as the key handler may be called on. *)
Definition full_right_phase : State :=
  mkState [0.125%float; 0.5%float] [0.25%float; 0.75%float] RightBounds 0.875%float
          "" "" [] "src/main.rs" Missing [] true.

(** The switch to the right bounds with no left bound collected. *)
Definition switch_without_left : State :=
  mainloop (init "src/main.rs" Missing) [NextPhase].

(** Both lists full, and a target file without the declaration. *)
Definition full_without_declaration : State :=
  mkState [0.125%float; 0.5%float] [0.25%float; 0.75%float] RightBounds 0.25%float
          "" "" [] "src/main.rs" (Present "fn main() {}" None) [] true.

(** Pointer positions (pixel, window width) from left to right, and from
    right to left. *)
Definition left_to_right_points : list (Z * Z) := [(240, 800); (560, 800)].

Definition right_to_left_points : list (Z * Z) := [(560, 800); (240, 800)].

(** The patcher's precondition met on a file that holds the declaration,
    with a write that fails: at open, and after the file has been emptied. *)
Definition open_fails_state : State :=
  mkState [0.125%float] [0.25%float] RightBounds 0.25%float
          "" "" [] "src/main.rs"
          (Present "const UNSCALED_RELATIVE_X_POSITIONS: &[f32] = &[];"
                   (Some (OpenFails "Permission denied")))
          [] true.

Definition write_fails_state : State :=
  mkState [0.125%float] [0.25%float] RightBounds 0.25%float
          "" "" [] "src/main.rs"
          (Present "const UNSCALED_RELATIVE_X_POSITIONS: &[f32] = &[];"
                   (Some (WriteFails "No space left on device" 0)))
          [] true.

(** Three left bounds, the switch, one right bound collected, and the
    pointer moved on to the next sample. *)
Definition one_right_collected : State :=
  mainloop (init "src/main.rs" Missing)
           [Motion 100 800; Confirm; Motion 400 800; Confirm;
            Motion 700 800; Confirm; NextPhase;
            Motion 200 800; Confirm; Motion 600 800].

(** A whole session on two strings: the left edges from left to right, the
    switch, and the right edges from right to left. *)
Definition two_string_session : list event :=
  confirm_events left_to_right_points ++ NextPhase :: confirm_events right_to_left_points.

(** ** The embedding on known values *)

(** The float formats on values whose CPython rendering is known: ties and
    carries, the largest and the smallest positive binary64 numbers, the
    signed zeros and the special values. *)
Example format_17e_tenth : format_17e 0.1%float = "1.00000000000000006e-01".
Proof. vm_compute. reflexivity. Qed.

Example format_17e_half : format_17e 0.5%float = "5.00000000000000000e-01".
Proof. vm_compute. reflexivity. Qed.

Example format_17e_tie :
  format_17e 1000000000000000.125%float = "1.00000000000000012e+15".
Proof. vm_compute. reflexivity. Qed.

Example format_17e_1e23 : format_17e 1e23%float = "9.99999999999999916e+22".
Proof. vm_compute. reflexivity. Qed.

Example format_17e_largest :
  format_17e 0x1.fffffffffffffp+1023%float = "1.79769313486231571e+308".
Proof. vm_compute. reflexivity. Qed.

Example format_17e_smallest :
  format_17e 0x1p-1074%float = "4.94065645841246544e-324".
Proof. vm_compute. reflexivity. Qed.

Example format_17e_negative_zero :
  format_17e (-0)%float = "-0.00000000000000000e+00".
Proof. vm_compute. reflexivity. Qed.

Example format_17e_special :
  format_17e infinity = "inf" /\ format_17e neg_infinity = "-inf"
  /\ format_17e nan = "nan".
Proof. vm_compute. auto. Qed.

Example format_4f_rounds :
  format_4f 0.12345%float = "0.1235" /\ format_4f 0.99995%float = "1.0000"
  /\ format_4f (-0.00001)%float = "-0.0000".
Proof. vm_compute. auto. Qed.

Example str_int_values :
  str_int 0 = "0" /\ str_int 9 = "9" /\ str_int 10 = "10" /\ str_int 12345 = "12345".
Proof. vm_compute. auto. Qed.

(** The pattern: the declaration must start a line, the block ends at the
    first terminator, and the leftmost match is the one replaced. *)
Example search_mid_line :
  PyRe.search ("pub const UNSCALED_RELATIVE_X_POSITIONS: &[f32] = &[1.0];") = None.
Proof. vm_compute. reflexivity. Qed.

Example search_second_line :
  PyRe.search ("// x" ++ LF ++ "const UNSCALED_RELATIVE_X_POSITIONS: &[f32] = &["
                ++ LF ++ "  1.0," ++ LF ++ "];" ++ LF ++ "let a = [0];")
  = Some ("// x" ++ LF, LF ++ "  1.0," ++ LF, LF ++ "let a = [0];").
Proof. vm_compute. reflexivity. Qed.

Example sub_first_leftmost :
  PyRe.sub_first "NEW"
    ("const UNSCALED_RELATIVE_X_POSITIONS: &[f32] = &[1];" ++ LF
     ++ "const UNSCALED_RELATIVE_X_POSITIONS: &[f32] = &[2];")
  = "NEW" ++ LF ++ "const UNSCALED_RELATIVE_X_POSITIONS: &[f32] = &[2];".
Proof. vm_compute. reflexivity. Qed.

(** A whole session: two strings, right edges confirmed from right to left,
    and the target file rewritten. *)
Example session_rewrites_file :
  let s := mainloop
             (init "src/main.rs"
                   (Present ("const UNSCALED_RELATIVE_X_POSITIONS: &[f32] = &[];" ++ LF)
                            None))
             [Motion 80 800; Confirm; Motion 400 800; Confirm; NextPhase;
              Motion 560 800; Confirm; Motion 240 800; Confirm; Undo] in
  left_bounds s = [0.1%float; 0.5%float]
  /\ right_bounds s = [0.3%float; 0.7%float]
  /\ running s = false
  /\ rust_file s
     = Present ("const UNSCALED_RELATIVE_X_POSITIONS: &[f32] = &[" ++ LF
                ++ "    2.00000000000000011e-01," ++ LF
                ++ "    5.99999999999999978e-01," ++ LF
                ++ "];" ++ LF) None.
Proof. vm_compute. auto. Qed.

(** ** Basic facts about the list methods *)

Lemma pop_length {A} (l l' : list A) (x : A) :
  PyList.pop l = Some (x, l') -> List.length l = S (List.length l').
Proof.
  revert l' x; induction l as [|a t IH]; intros l' x H; simpl in H.
  - discriminate.
  - destruct (PyList.pop t) as [[y t']|] eqn:E.
    + injection H as <- <-. simpl. f_equal. eapply IH. reflexivity.
    + injection H as <- <-. destruct t; [reflexivity|].
      simpl in E. destruct (PyList.pop t) as [[? ?]|]; discriminate.
Qed.

Lemma pop_append {A} (l : list A) (x : A) :
  PyList.pop (PyList.append l x) = Some (x, l).
Proof.
  unfold PyList.append. induction l as [|a t IH]; simpl.
  - reflexivity.
  - rewrite IH. reflexivity.
Qed.

Lemma pop_nonempty {A} (l : list A) :
  PyList.truthy l = true -> exists x l', PyList.pop l = Some (x, l').
Proof.
  destruct l as [|a t]; [discriminate|]. intros _. simpl.
  destruct (PyList.pop t) as [[y t']|]; eauto.
Qed.

(** ** What the file patcher leaves alone *)

Ltac patcher_cases s :=
  unfold calculate_and_update_rust_file;
  destruct (negb (PyList.len (left_bounds s) =? PyList.len (right_bounds s)));
  [reflexivity|]; cbn;
  destruct (rust_file s) as [|err|content [[werr|werr written]|]]; try reflexivity;
  destruct (PyRe.search content); reflexivity.

Lemma patcher_left_bounds s :
  left_bounds (calculate_and_update_rust_file s) = left_bounds s.
Proof. patcher_cases s. Qed.

Lemma patcher_right_bounds s :
  right_bounds (calculate_and_update_rust_file s) = right_bounds s.
Proof. patcher_cases s. Qed.

Lemma patcher_current_list s :
  current_list (calculate_and_update_rust_file s) = current_list s.
Proof. patcher_cases s. Qed.

Lemma patcher_running s :
  running (calculate_and_update_rust_file s) = running s.
Proof. patcher_cases s. Qed.

(** ** The key handler, case by case *)

Ltac simp :=
  cbn -[calculate_and_update_rust_file PyList.len Z.ltb Z.eqb Z.gtb
        str_int format_17e format_4f Nat.eqb].

Lemma len_insert0 {A} (l : list A) (x : A) :
  PyList.len (PyList.insert0 l x) = PyList.len l + 1.
Proof. unfold PyList.len, PyList.insert0. simpl List.length. lia. Qed.

Lemma len_eqb {A B} (l : list A) (l' : list B) :
  (PyList.len l =? PyList.len l') = (List.length l =? List.length l')%nat.
Proof.
  unfold PyList.len.
  destruct (Nat.eqb_spec (List.length l) (List.length l')) as [E|E].
  - apply Z.eqb_eq. lia.
  - apply Z.eqb_neq. lia.
Qed.

Lemma len_ltb {A B} (l : list A) (l' : list B) :
  (PyList.len l <? PyList.len l') = (List.length l <? List.length l')%nat.
Proof.
  unfold PyList.len.
  destruct (Nat.ltb_spec (List.length l) (List.length l')) as [E|E].
  - apply Z.ltb_lt. lia.
  - apply Z.ltb_ge. lia.
Qed.

(** Confirm while collecting the left bounds. *)
Lemma confirm_left s :
  current_list s = LeftBounds ->
  left_bounds (on_key_press s "space") = (left_bounds s ++ [mouse_x_percentage s])%list
  /\ right_bounds (on_key_press s "space") = right_bounds s
  /\ current_list (on_key_press s "space") = LeftBounds
  /\ running (on_key_press s "space") = running s.
Proof.
  intros H. unfold on_key_press, set_current, get_current. simp. rewrite H. simp.
  repeat split. exact H.
Qed.

(** Confirm while collecting the right bounds, with room left. *)
Lemma confirm_right s :
  current_list s = RightBounds ->
  (List.length (right_bounds s) < List.length (left_bounds s))%nat ->
  left_bounds (on_key_press s "space") = left_bounds s
  /\ right_bounds (on_key_press s "space") = mouse_x_percentage s :: right_bounds s
  /\ current_list (on_key_press s "space") = RightBounds
  /\ running (on_key_press s "space")
     = if (S (List.length (right_bounds s)) =? List.length (left_bounds s))%nat
       then false else running s.
Proof.
  intros H Hlt. unfold on_key_press, set_current, get_current. simp.
  rewrite H. simp. rewrite len_ltb.
  replace (List.length (right_bounds s) <? List.length (left_bounds s))%nat
    with true by (symmetry; apply Nat.ltb_lt; exact Hlt).
  simp. rewrite len_eqb. unfold PyList.insert0. simpl List.length.
  destruct (S (List.length (right_bounds s)) =? List.length (left_bounds s))%nat.
  - simp. rewrite patcher_left_bounds, patcher_right_bounds, patcher_current_list.
    simp. auto.
  - simp. auto.
Qed.

(** Confirm while collecting the right bounds, with the list full. *)
Lemma confirm_right_full s :
  current_list s = RightBounds ->
  (List.length (left_bounds s) <= List.length (right_bounds s))%nat ->
  on_key_press s "space" = s.
Proof.
  intros H Hle. unfold on_key_press. simp. rewrite H. simp. rewrite len_ltb.
  replace (List.length (right_bounds s) <? List.length (left_bounds s))%nat
    with false by (symmetry; apply Nat.ltb_ge; exact Hle).
  reflexivity.
Qed.

(** Undo: the last element of the current list is removed, whichever list
    that is; on an empty list nothing happens. *)
Lemma undo_empty s :
  get_current s = [] -> on_key_press s "BackSpace" = s.
Proof.
  intros H. unfold on_key_press. simp. rewrite H. reflexivity.
Qed.

Lemma undo_guard {A} (l : list A) :
  PyList.truthy l && (PyList.len l >? 0) = PyList.truthy l.
Proof.
  destruct l as [|a t]; [reflexivity|]. unfold PyList.len. simpl PyList.truthy.
  simpl List.length. rewrite Z.gtb_ltb.
  replace (0 <? Z.of_nat (S (List.length t))) with true
    by (symmetry; apply Z.ltb_lt; lia).
  reflexivity.
Qed.

Lemma undo_left s x l :
  current_list s = LeftBounds ->
  PyList.pop (left_bounds s) = Some (x, l) ->
  left_bounds (on_key_press s "BackSpace") = l
  /\ right_bounds (on_key_press s "BackSpace") = right_bounds s
  /\ current_list (on_key_press s "BackSpace") = LeftBounds
  /\ running (on_key_press s "BackSpace") = running s.
Proof.
  intros H Hp. unfold on_key_press, get_current, set_current. simp. rewrite H.
  rewrite undo_guard, Hp.
  destruct (left_bounds s); [discriminate|]. simp. rewrite H. simp. auto.
Qed.

Lemma undo_right s x l :
  current_list s = RightBounds ->
  PyList.pop (right_bounds s) = Some (x, l) ->
  left_bounds (on_key_press s "BackSpace") = left_bounds s
  /\ right_bounds (on_key_press s "BackSpace") = l
  /\ current_list (on_key_press s "BackSpace") = RightBounds
  /\ running (on_key_press s "BackSpace") = running s.
Proof.
  intros H Hp. unfold on_key_press, get_current, set_current. simp. rewrite H.
  rewrite undo_guard, Hp.
  destruct (right_bounds s); [discriminate|]. simp. rewrite H. simp. auto.
Qed.

(** Next phase. *)
Lemma next_phase_left s :
  current_list s = LeftBounds ->
  left_bounds (on_key_press s "Return") = left_bounds s
  /\ right_bounds (on_key_press s "Return") = right_bounds s
  /\ current_list (on_key_press s "Return") = RightBounds
  /\ running (on_key_press s "Return") = running s.
Proof.
  intros H. unfold on_key_press. simp. rewrite H. simp. auto.
Qed.

Lemma next_phase_right s :
  current_list s = RightBounds -> on_key_press s "Return" = s.
Proof.
  intros H. unfold on_key_press. simp. rewrite H. reflexivity.
Qed.

(** Any other key is ignored. *)
Lemma on_key_press_cases s k :
  on_key_press s k = on_key_press s "space"
  \/ on_key_press s k = on_key_press s "BackSpace"
  \/ on_key_press s k = on_key_press s "Return"
  \/ on_key_press s k = s.
Proof.
  destruct (String.eqb_spec k "space") as [->|E1]; [auto|].
  destruct (String.eqb_spec k "BackSpace") as [->|E2]; [auto|].
  destruct (String.eqb_spec k "Return") as [->|E3]; [auto|].
  do 3 right. unfold on_key_press.
  apply String.eqb_neq in E1, E2, E3. rewrite E1, E2, E3. reflexivity.
Qed.

(** A pointer motion touches the sample and its readout only. *)
Lemma on_mouse_move_frame s x w :
  left_bounds (on_mouse_move s x w) = left_bounds s
  /\ right_bounds (on_mouse_move s x w) = right_bounds s
  /\ current_list (on_mouse_move s x w) = current_list s
  /\ running (on_mouse_move s x w) = running s
  /\ stdout (on_mouse_move s x w) = stdout s
  /\ rust_file (on_mouse_move s x w) = rust_file s
  /\ file_writes (on_mouse_move s x w) = file_writes s.
Proof.
  unfold on_mouse_move. destruct (w >? 0); simp; repeat split.
Qed.

(** ** Invariants of the event loop *)

(** Once the right bounds are being collected, every event keeps the phase
    and the left bounds. *)
Lemma dispatch_right_phase s e :
  current_list s = RightBounds ->
  current_list (dispatch s e) = RightBounds
  /\ left_bounds (dispatch s e) = left_bounds s.
Proof.
  intros H. destruct e as [k|x w]; simpl dispatch.
  - destruct (on_key_press_cases s k) as [E|[E|[E|E]]]; rewrite E; clear E.
    + destruct (Nat.lt_ge_cases (List.length (right_bounds s))
                                (List.length (left_bounds s))) as [Hlt|Hge].
      * destruct (confirm_right s H Hlt) as (? & ? & ? & ?). auto.
      * rewrite (confirm_right_full s H Hge). auto.
    + destruct (PyList.pop (right_bounds s)) as [[x l]|] eqn:Hp.
      * destruct (undo_right s x l H Hp) as (? & ? & ? & ?). auto.
      * rewrite undo_empty; [auto|]. unfold get_current. rewrite H.
        destruct (right_bounds s) as [|a t]; [reflexivity|].
        destruct (pop_nonempty (a :: t) eq_refl) as (? & ? & E).
        rewrite E in Hp. discriminate.
    + rewrite (next_phase_right s H). auto.
    + auto.
  - destruct (on_mouse_move_frame s x w) as (? & ? & Hc & _).
    rewrite Hc. auto.
Qed.

Lemma mainloop_right_phase events : forall s,
  current_list s = RightBounds ->
  current_list (mainloop s events) = RightBounds
  /\ left_bounds (mainloop s events) = left_bounds s.
Proof.
  induction events as [|e rest IH]; intros s H; simpl.
  - auto.
  - destruct (running s); [|auto].
    destruct (dispatch_right_phase s e H) as [Hc Hl].
    destruct (IH _ Hc) as [Hc' Hl']. rewrite Hl', Hl. auto.
Qed.

Lemma pop_none {A} (l : list A) : PyList.pop l = None -> l = [].
Proof.
  destruct l as [|a t]; [reflexivity|]. intros Hp.
  destruct (pop_nonempty (a :: t) eq_refl) as (? & ? & E).
  rewrite E in Hp. discriminate.
Qed.

Lemma dispatch_invariant s e :
  collection_invariant s -> collection_invariant (dispatch s e).
Proof.
  intros [Hle Hemp]. unfold collection_invariant.
  destruct e as [k|x w]; simpl dispatch.
  - destruct (on_key_press_cases s k) as [E|[E|[E|E]]]; rewrite E; clear E.
    + destruct (current_list s) eqn:H.
      * destruct (confirm_left s H) as (Hl & Hr & Hc & _).
        rewrite Hl, Hr, Hc, length_app. rewrite (Hemp eq_refl). simpl. split; [lia|auto].
      * destruct (Nat.lt_ge_cases (List.length (right_bounds s))
                                  (List.length (left_bounds s))) as [Hlt|Hge].
        -- destruct (confirm_right s H Hlt) as (Hl & Hr & Hc & _).
           rewrite Hl, Hr, Hc. simpl. split; [lia|discriminate].
        -- rewrite (confirm_right_full s H Hge). rewrite H. split; [lia|discriminate].
    + destruct (current_list s) eqn:H.
      * destruct (PyList.pop (left_bounds s)) as [[x l]|] eqn:Hp.
        -- destruct (undo_left s x l H Hp) as (Hl & Hr & Hc & _).
           rewrite Hl, Hr, Hc, (Hemp eq_refl). simpl. split; [lia|auto].
        -- rewrite undo_empty; [rewrite H; auto|].
           unfold get_current. rewrite H. apply pop_none, Hp.
      * destruct (PyList.pop (right_bounds s)) as [[x l]|] eqn:Hp.
        -- destruct (undo_right s x l H Hp) as (Hl & Hr & Hc & _).
           rewrite Hl, Hr, Hc. apply pop_length in Hp. split; [lia|discriminate].
        -- rewrite undo_empty; [rewrite H; split; [lia|discriminate]|].
           unfold get_current. rewrite H. apply pop_none, Hp.
    + destruct (current_list s) eqn:H.
      * destruct (next_phase_left s H) as (Hl & Hr & Hc & _).
        rewrite Hl, Hr, Hc. split; [lia|discriminate].
      * rewrite (next_phase_right s H). rewrite H. split; [lia|discriminate].
    + auto.
  - destruct (on_mouse_move_frame s x w) as (Hl & Hr & Hc & _).
    rewrite Hl, Hr, Hc. auto.
Qed.

Lemma mainloop_invariant events : forall s,
  collection_invariant s -> collection_invariant (mainloop s events).
Proof.
  induction events as [|e rest IH]; intros s H; simpl.
  - exact H.
  - destruct (running s); [|exact H]. apply IH, dispatch_invariant, H.
Qed.

Lemma init_invariant path f : collection_invariant (init path f).
Proof. split; [simpl; lia | reflexivity]. Qed.

(** C4: in every state reachable from the initial state (empty lists,
    collecting the left bounds) by any sequence of events, the right bounds
    are at most as many as the left bounds. *)
Theorem right_bounds_never_exceed_left path f events :
  (List.length (right_bounds (mainloop (init path f) events))
   <= List.length (left_bounds (mainloop (init path f) events)))%nat.
Proof.
  apply (mainloop_invariant events (init path f)), init_invariant.
Qed.

(** C5: while the right bounds are collected and are as many as the left
    bounds, Confirm changes nothing: both lists, and the whole state, are
    as before. *)
Theorem confirm_when_full_is_noop s :
  current_list s = RightBounds ->
  List.length (right_bounds s) = List.length (left_bounds s) ->
  left_bounds (dispatch s Confirm) = left_bounds s
  /\ right_bounds (dispatch s Confirm) = right_bounds s
  /\ dispatch s Confirm = s.
Proof.
  intros H Hlen. simpl dispatch.
  rewrite (confirm_right_full s H) by lia. auto.
Qed.

(** On the state [full_right_phase], two bounds on each side. *)
Lemma confirm_when_full_is_noop_witness :
  current_list full_right_phase = RightBounds
  /\ List.length (right_bounds full_right_phase)
     = List.length (left_bounds full_right_phase)
  /\ dispatch full_right_phase Confirm = full_right_phase.
Proof.
  split; [reflexivity|]. split; [reflexivity|].
  exact (proj2 (proj2 (confirm_when_full_is_noop full_right_phase eq_refl eq_refl))).
Defined.

(** C6: the phase advances once and never goes back: from a state that
    collects the right bounds, no sequence of events leads to a state that
    collects the left bounds, and the Next-phase key changes nothing. *)
Theorem phase_never_goes_back s events :
  current_list s = RightBounds ->
  current_list (mainloop s events) = RightBounds
  /\ (forall e, current_list (dispatch s e) = RightBounds)
  /\ dispatch s NextPhase = s.
Proof.
  intros H. split; [apply mainloop_right_phase, H|].
  split; [intros e; apply dispatch_right_phase, H|].
  apply next_phase_right, H.
Qed.

(** On the session [two_left_then_switch], followed by five more events. *)
Lemma phase_never_goes_back_witness :
  current_list two_left_then_switch = RightBounds
  /\ current_list (mainloop two_left_then_switch
                            [NextPhase; Undo; Motion 240 800; Confirm; NextPhase])
     = RightBounds.
Proof.
  assert (H : current_list two_left_then_switch = RightBounds)
    by (vm_compute; reflexivity).
  split; [exact H|].
  exact (proj1 (phase_never_goes_back two_left_then_switch _ H)).
Defined.

(** C9: after the switch to the right bounds the left bounds are never
    modified again: the Next-phase key leaves them as they are and selects
    the right bounds, and from then on every event, and every sequence of
    events, leaves the left bounds unchanged. *)
Theorem left_bounds_frozen_after_switch s events :
  current_list s = RightBounds ->
  left_bounds (mainloop s events) = left_bounds s
  /\ (forall e, left_bounds (dispatch s e) = left_bounds s).
Proof.
  intros H. split; [apply mainloop_right_phase, H|].
  intros e; apply dispatch_right_phase, H.
Qed.

(** On the session [two_left_then_switch], followed by five more events. *)
Lemma left_bounds_frozen_after_switch_witness :
  current_list two_left_then_switch = RightBounds
  /\ left_bounds (mainloop two_left_then_switch
                           [Motion 240 800; Confirm; Undo; NextPhase; Confirm])
     = left_bounds two_left_then_switch.
Proof.
  assert (H : current_list two_left_then_switch = RightBounds)
    by (vm_compute; reflexivity).
  split; [exact H|].
  exact (proj1 (left_bounds_frozen_after_switch two_left_then_switch _ H)).
Defined.

(** ** Averages *)

Lemma final_x_positions_length left right :
  List.length left = List.length right ->
  List.length (final_x_positions left right) = List.length left.
Proof.
  intros H. unfold final_x_positions.
  rewrite length_map, length_combine, <- H. apply Nat.min_id.
Qed.

Lemma final_x_positions_nth left : forall right i l r,
  nth_error left i = Some l ->
  nth_error right i = Some r ->
  nth_error (final_x_positions left right) i
  = Some (PrimFloat.div (PrimFloat.add l r) 2%float).
Proof.
  induction left as [|a left IH]; intros right i l r Hl Hr.
  - destruct i; discriminate.
  - destruct right as [|b right]; [destruct i; discriminate|].
    destruct i as [|i]; simpl in *.
    + injection Hl as <-. injection Hr as <-. reflexivity.
    + apply IH; assumption.
Qed.

(** What the patcher prints when the lengths agree: the header, the block,
    the dashes and one closing message. *)
Lemma patcher_stdout s :
  List.length (left_bounds s) = List.length (right_bounds s) ->
  exists msg,
    stdout (calculate_and_update_rust_file s)
    = (stdout s
       ++ [block_header;
           rust_array_string (final_x_positions (left_bounds s) (right_bounds s));
           dash_line; msg])%list.
Proof.
  intros H. unfold calculate_and_update_rust_file.
  rewrite len_eqb, H, Nat.eqb_refl. simp.
  destruct (rust_file s) as [|err|content [[werr|werr written]|]]; simp;
    try destruct (PyRe.search content); simp;
    eexists; rewrite <- !app_assoc; reflexivity.
Qed.

Lemma patcher_prints_block s :
  List.length (left_bounds s) = List.length (right_bounds s) ->
  In (rust_array_string (final_x_positions (left_bounds s) (right_bounds s)))
     (stdout (calculate_and_update_rust_file s)).
Proof.
  intros H. destruct (patcher_stdout s H) as [msg ->].
  apply in_or_app. right. simpl. auto.
Qed.

(** C1: for left bounds and right bounds of equal length the file patcher
    computes (and prints in its block) averages that are as many as the
    left bounds, the average at every index being the sum of the left and
    right bound at that index, divided by two. *)
Theorem patcher_averages_bounds s :
  List.length (left_bounds s) = List.length (right_bounds s) ->
  let averaged := final_x_positions (left_bounds s) (right_bounds s) in
  List.length averaged = List.length (left_bounds s)
  /\ (forall i l r,
        nth_error (left_bounds s) i = Some l ->
        nth_error (right_bounds s) i = Some r ->
        nth_error averaged i = Some (PrimFloat.div (PrimFloat.add l r) 2%float))
  /\ In (rust_array_string averaged) (stdout (calculate_and_update_rust_file s)).
Proof.
  intros H averaged. split; [apply final_x_positions_length, H|].
  split; [intros i l r; apply final_x_positions_nth|].
  apply patcher_prints_block, H.
Qed.

(** On the state [full_right_phase]: two averages, the second being 0.625. *)
Lemma patcher_averages_bounds_witness :
  List.length (left_bounds full_right_phase)
  = List.length (right_bounds full_right_phase)
  /\ List.length (final_x_positions (left_bounds full_right_phase)
                                    (right_bounds full_right_phase)) = 2%nat
  /\ nth_error (final_x_positions (left_bounds full_right_phase)
                                  (right_bounds full_right_phase)) 1
     = Some 0.625%float.
Proof.
  split; [reflexivity|].
  pose proof (patcher_averages_bounds full_right_phase eq_refl) as [Hlen [Hnth _]].
  split; [exact Hlen|].
  exact (Hnth 1%nat 0.5%float 0.75%float eq_refl eq_refl).
Defined.

(** ** Undo after Confirm *)

(** While the left bounds are collected, Undo after Confirm gives back the
    list as it was. *)
Lemma undo_after_confirm_left s :
  current_list s = LeftBounds ->
  left_bounds (dispatch (dispatch s Confirm) Undo) = left_bounds s
  /\ right_bounds (dispatch (dispatch s Confirm) Undo) = right_bounds s.
Proof.
  intros H. simpl dispatch.
  destruct (confirm_left s H) as (Hl & Hr & Hc & _).
  assert (Hp : PyList.pop (left_bounds (on_key_press s "space"))
               = Some (mouse_x_percentage s, left_bounds s))
    by (rewrite Hl; apply pop_append).
  destruct (undo_left _ _ _ Hc Hp) as (Hl' & Hr' & _).
  rewrite Hl', Hr', Hr. auto.
Qed.

(** While the right bounds are collected, Undo after a Confirm that did not
    complete the collection removes the LAST element of the list, the oldest
    right bound, and keeps the sample just inserted at the head. *)
Lemma undo_after_confirm_right s :
  current_list s = RightBounds ->
  (List.length (right_bounds s) < List.length (left_bounds s))%nat ->
  right_bounds (dispatch (dispatch s Confirm) Undo)
  = match PyList.pop (right_bounds s) with
    | Some (_, l) => mouse_x_percentage s :: l
    | None => []
    end.
Proof.
  intros H Hlt. simpl dispatch.
  destruct (confirm_right s H Hlt) as (Hl & Hr & Hc & _).
  destruct (PyList.pop (right_bounds s)) as [[y l]|] eqn:Hp.
  - assert (Hp' : PyList.pop (right_bounds (on_key_press s "space"))
                  = Some (y, mouse_x_percentage s :: l))
      by (rewrite Hr; simpl; rewrite Hp; reflexivity).
    destruct (undo_right _ _ _ Hc Hp') as (_ & Hr' & _). exact Hr'.
  - assert (Hp' : PyList.pop (right_bounds (on_key_press s "space"))
                  = Some (mouse_x_percentage s, []))
      by (rewrite Hr; simpl; rewrite Hp; reflexivity).
    destruct (undo_right _ _ _ Hc Hp') as (_ & Hr' & _). exact Hr'.
Qed.

(** C2, on the code: with left bounds [0.125, 0.5, 0.875], right bounds
    [0.25] and the pointer at 0.75, Confirm gives the right bounds
    [0.75, 0.25] and the Undo that follows leaves [0.75]: the element
    removed is 0.25, not the 0.75 that Confirm inserted. *)
Theorem undo_after_confirm_right_drops_oldest :
  current_list one_right_collected = RightBounds
  /\ left_bounds one_right_collected = [0.125%float; 0.5%float; 0.875%float]
  /\ right_bounds one_right_collected = [0.25%float]
  /\ mouse_x_percentage one_right_collected = 0.75%float
  /\ right_bounds (dispatch one_right_collected Confirm) = [0.75%float; 0.25%float]
  /\ right_bounds (dispatch (dispatch one_right_collected Confirm) Undo)
     = [0.75%float]
  /\ right_bounds (dispatch (dispatch one_right_collected Confirm) Undo)
     <> right_bounds one_right_collected.
Proof.
  vm_compute. repeat split. discriminate.
Qed.

(** ** The order of the right bounds *)

Lemma increasing_snoc l : forall a b,
  increasing ((l ++ [a]) ++ [b]) = increasing (l ++ [a]) && PrimFloat.ltb a b.
Proof.
  induction l as [|c l IH]; intros a b.
  - simpl. rewrite andb_true_r. reflexivity.
  - destruct l as [|d l].
    + simpl. rewrite !andb_true_r. reflexivity.
    + change (increasing (((c :: d :: l) ++ [a]) ++ [b]))
        with (PrimFloat.ltb c d && increasing (((d :: l) ++ [a]) ++ [b])).
      change (increasing ((c :: d :: l) ++ [a]))
        with (PrimFloat.ltb c d && increasing ((d :: l) ++ [a])).
      rewrite IH, andb_assoc. reflexivity.
Qed.

Lemma increasing_rev l : increasing (rev l) = decreasing l.
Proof.
  induction l as [|a l IH]; [reflexivity|].
  destruct l as [|b l]; [reflexivity|].
  change (decreasing (a :: b :: l)) with (PrimFloat.ltb b a && decreasing (b :: l)).
  rewrite <- IH. simpl rev. rewrite increasing_snoc. apply andb_comm.
Qed.

(** Confirming a series of samples while the right bounds are collected and
    have room for them puts them in front of the list, last sample first. *)
Lemma confirm_events_right points : forall s,
  current_list s = RightBounds ->
  running s = true ->
  Forall (fun p => 0 < snd p) points ->
  (List.length (right_bounds s) + List.length points
   <= List.length (left_bounds s))%nat ->
  right_bounds (mainloop s (confirm_events points))
  = (rev (confirmed_samples points) ++ right_bounds s)%list
  /\ left_bounds (mainloop s (confirm_events points)) = left_bounds s.
Proof.
  induction points as [|[x w] points IH]; intros s Hc Hrun Hw Hlen.
  - simpl. auto.
  - inversion Hw as [|? ? Hw0 Hw']; subst. simpl in Hw0.
    simpl confirm_events. simpl mainloop. rewrite Hrun.
    destruct (on_mouse_move_frame s x w) as (Hl1 & Hr1 & Hc1 & Hrun1 & _).
    rewrite Hrun1, Hrun.
    assert (Hm : mouse_x_percentage (on_mouse_move s x w) = int_truediv x w).
    { unfold on_mouse_move. apply Z.gtb_lt in Hw0. rewrite Hw0. reflexivity. }
    set (s1 := on_mouse_move s x w) in *.
    assert (Hc1' : current_list s1 = RightBounds) by congruence.
    simpl List.length in Hlen.
    assert (Hlt : (List.length (right_bounds s1) < List.length (left_bounds s1))%nat)
      by (rewrite Hl1, Hr1; lia).
    destruct (confirm_right s1 Hc1' Hlt) as (Hl2 & Hr2 & Hc2 & Hrun2).
    set (s2 := on_key_press s1 "space") in *.
    destruct points as [|q points].
    + simpl. rewrite Hr2, Hl2, Hm, Hr1, Hl1. auto.
    + assert (Hrun2' : running s2 = true).
      { rewrite Hrun2, Hrun1, Hrun.
        replace (S (List.length (right_bounds s1)) =? List.length (left_bounds s1))%nat
          with false; [reflexivity|].
        symmetry. apply Nat.eqb_neq. rewrite Hl1, Hr1. simpl in Hlen. lia. }
      destruct (IH s2 Hc2 Hrun2' Hw') as [Hr3 Hl3].
      { rewrite Hr2, Hl2, Hr1, Hl1. simpl List.length in *. lia. }
      rewrite Hr3, Hl3, Hr2, Hl2, Hm, Hr1, Hl1.
      split; [|reflexivity].
      change (confirmed_samples ((x, w) :: q :: points))
        with (int_truediv x w :: confirmed_samples (q :: points)).
      simpl rev. rewrite <- !app_assoc. reflexivity.
Qed.

(** C3, as stated, fails: with the left bounds [0.1, 0.5] collected, the
    right bounds confirmed from left to right, 0.3 and then 0.7, end up
    as [0.7, 0.3], which is neither increasing nor in the order of
    confirmation. *)
Lemma left_to_right_confirms_end_reversed :
  current_list two_left_then_switch = RightBounds
  /\ right_bounds two_left_then_switch = []
  /\ left_bounds (mainloop two_left_then_switch (confirm_events left_to_right_points))
     = [0.1%float; 0.5%float]
  /\ confirmed_samples left_to_right_points = [0.3%float; 0.7%float]
  /\ increasing (confirmed_samples left_to_right_points) = true
  /\ right_bounds (mainloop two_left_then_switch (confirm_events left_to_right_points))
     = [0.7%float; 0.3%float]
  /\ increasing
       (right_bounds (mainloop two_left_then_switch (confirm_events left_to_right_points)))
     = false
  /\ right_bounds (mainloop two_left_then_switch (confirm_events left_to_right_points))
     <> confirmed_samples left_to_right_points.
Proof.
  vm_compute. repeat split. discriminate.
Qed.

(** C3, amended: the right bounds confirmed while the list has room for
    them end up in the reverse of the order of confirmation.  The list is
    therefore increasing exactly when the samples were confirmed in
    decreasing order, from right to left, and its element [i] is the sample
    confirmed [i + 1] from the end: the right bound of the string whose left
    bound is at index [i], when the right edges are confirmed from the last
    string to the first.  The left bounds are as they were. *)
Theorem right_bounds_reverse_confirmation_order s points :
  current_list s = RightBounds ->
  running s = true ->
  right_bounds s = [] ->
  Forall (fun p => 0 < snd p) points ->
  (List.length points <= List.length (left_bounds s))%nat ->
  let s' := mainloop s (confirm_events points) in
  right_bounds s' = rev (confirmed_samples points)
  /\ increasing (right_bounds s') = decreasing (confirmed_samples points)
  /\ (forall i, (i < List.length points)%nat ->
        nth_error (right_bounds s') i
        = nth_error (confirmed_samples points) (List.length points - S i))
  /\ left_bounds s' = left_bounds s.
Proof.
  intros Hc Hrun Hr Hw Hlen s'.
  destruct (confirm_events_right points s Hc Hrun Hw) as [Hr' Hl'].
  { rewrite Hr. simpl. exact Hlen. }
  fold s' in Hr', Hl'. rewrite Hr, app_nil_r in Hr'.
  split; [exact Hr'|]. split; [rewrite Hr'; apply increasing_rev|].
  split; [|exact Hl'].
  intros i Hi. rewrite Hr', nth_error_rev.
  assert (Hn : List.length (confirmed_samples points) = List.length points)
    by apply length_map.
  rewrite Hn. apply Nat.ltb_lt in Hi. rewrite Hi. reflexivity.
Qed.

(** On the session [two_left_then_switch], the right edges confirmed from
    right to left: the right bounds end up increasing. *)
Lemma right_bounds_reverse_confirmation_order_witness :
  right_bounds (mainloop two_left_then_switch (confirm_events right_to_left_points))
  = rev (confirmed_samples right_to_left_points)
  /\ increasing
       (right_bounds (mainloop two_left_then_switch (confirm_events right_to_left_points)))
     = decreasing (confirmed_samples right_to_left_points)
  /\ decreasing (confirmed_samples right_to_left_points) = true.
Proof.
  assert (Hc : current_list two_left_then_switch = RightBounds)
    by (vm_compute; reflexivity).
  assert (Hrun : running two_left_then_switch = true) by (vm_compute; reflexivity).
  assert (Hr : right_bounds two_left_then_switch = []) by (vm_compute; reflexivity).
  assert (Hw : Forall (fun p : Z * Z => 0 < snd p) right_to_left_points)
    by (repeat constructor).
  assert (Hlen : (List.length right_to_left_points
                  <= List.length (left_bounds two_left_then_switch))%nat)
    by (vm_compute; repeat constructor).
  pose proof (right_bounds_reverse_confirmation_order
                two_left_then_switch right_to_left_points Hc Hrun Hr Hw Hlen)
    as [H1 [H2 _]].
  split; [exact H1|]. split; [exact H2|]. vm_compute. reflexivity.
Defined.

(** ** The pattern and the target file *)

Lemma string_app_assoc (a b c : string) : (a ++ b) ++ c = a ++ b ++ c.
Proof. induction a as [|x a IH]; simpl; [reflexivity | rewrite IH; reflexivity]. Qed.

Lemma string_app_nil_r (a : string) : a ++ "" = a.
Proof. induction a as [|x a IH]; simpl; [reflexivity | rewrite IH; reflexivity]. Qed.

Lemma strip_prefix_app p s : PyRe.strip_prefix p (p ++ s) = Some s.
Proof.
  induction p as [|c p IH]; simpl; [reflexivity|].
  rewrite Ascii.eqb_refl. exact IH.
Qed.

Lemma strip_prefix_sound p : forall s r,
  PyRe.strip_prefix p s = Some r -> s = p ++ r.
Proof.
  induction p as [|c p IH]; intros s r H; simpl in H.
  - injection H as ->. reflexivity.
  - destruct s as [|d s]; [discriminate|].
    destruct (Ascii.eqb_spec c d) as [->|]; [|discriminate].
    simpl. f_equal. apply IH, H.
Qed.

Lemma split_terminator_sound s : forall g r,
  PyRe.split_terminator s = Some (g, r) -> s = g ++ PyRe.terminator ++ r.
Proof.
  induction s as [|c s IH]; intros g r H.
  - simpl in H. discriminate.
  - cbn [PyRe.split_terminator] in H.
    destruct (PyRe.strip_prefix PyRe.terminator (String c s)) as [rest|] eqn:E.
    + injection H as <- <-. apply strip_prefix_sound in E. exact E.
    + destruct (PyRe.split_terminator s) as [[g' r']|]; [|discriminate].
      injection H as <- <-. simpl. f_equal. apply IH. reflexivity.
Qed.

Lemma split_terminator_complete g : forall r,
  PyRe.split_terminator (g ++ PyRe.terminator ++ r) <> None.
Proof.
  induction g as [|c g IH]; intros r.
  - simpl. discriminate.
  - change ((String c g) ++ PyRe.terminator ++ r)
      with (String c (g ++ PyRe.terminator ++ r)).
    cbn [PyRe.split_terminator].
    destruct (PyRe.strip_prefix PyRe.terminator (String c (g ++ PyRe.terminator ++ r)));
      [discriminate|].
    specialize (IH r).
    destruct (PyRe.split_terminator (g ++ PyRe.terminator ++ r)) as [[? ?]|];
      [discriminate | contradiction].
Qed.

Lemma match_here_complete g r :
  PyRe.match_here (PyRe.declaration ++ g ++ PyRe.terminator ++ r) <> None.
Proof.
  unfold PyRe.match_here. rewrite strip_prefix_app. apply split_terminator_complete.
Qed.

Lemma search_from_complete before : forall bol g r,
  (before = "" -> bol = true) ->
  at_line_start before ->
  PyRe.search_from bol (before ++ PyRe.declaration ++ g ++ PyRe.terminator ++ r)
  <> None.
Proof.
  induction before as [|c before IH]; intros bol g r Hbol Hstart.
  - rewrite (Hbol eq_refl).
    change ("" ++ PyRe.declaration ++ g ++ PyRe.terminator ++ r)
      with (PyRe.declaration ++ g ++ PyRe.terminator ++ r).
    pose proof (match_here_complete g r) as Hm.
    destruct (PyRe.declaration ++ g ++ PyRe.terminator ++ r) as [|d t] eqn:E;
      cbn [PyRe.search_from];
      destruct (PyRe.match_here _) as [[? ?]|]; try discriminate; contradiction.
  - change (String c before ++ PyRe.declaration ++ g ++ PyRe.terminator ++ r)
      with (String c (before ++ PyRe.declaration ++ g ++ PyRe.terminator ++ r)).
    cbn [PyRe.search_from].
    destruct (if bol then PyRe.match_here _ else None) as [[? ?]|]; [discriminate|].
    assert (Hrec : PyRe.search_from (Ascii.eqb c (ascii_of_nat 10))
                     (before ++ PyRe.declaration ++ g ++ PyRe.terminator ++ r)
                   <> None).
    { apply IH.
      - intros ->. destruct Hstart as [H|[b H]]; [discriminate|].
        destruct b as [|x b]; simpl in H.
        + injection H as ->. reflexivity.
        + injection H as _ H. destruct b; discriminate.
      - destruct Hstart as [H|[b H]]; [discriminate|].
        destruct b as [|x b]; simpl in H.
        + injection H as _ ->. left. reflexivity.
        + injection H as _ ->. right. exists b. reflexivity. }
    destruct (PyRe.search_from _ _) as [[[? ?] ?]|]; [discriminate | contradiction].
Qed.

Lemma search_from_sound s : forall bol b g r,
  PyRe.search_from bol s = Some (b, g, r) ->
  s = b ++ PyRe.declaration ++ g ++ PyRe.terminator ++ r
  /\ (b = "" -> bol = true)
  /\ (b <> "" -> exists b', b = b' ++ LF).
Proof.
  assert (Hhere : forall (bol : bool) s g r,
             (if bol then PyRe.match_here s else None) = Some (g, r) ->
             bol = true /\ s = PyRe.declaration ++ g ++ PyRe.terminator ++ r).
  { intros [|] s0 g r H; [|discriminate]. split; [reflexivity|].
    unfold PyRe.match_here in H.
    destruct (PyRe.strip_prefix PyRe.declaration s0) as [body|] eqn:E; [|discriminate].
    apply strip_prefix_sound in E. apply split_terminator_sound in H.
    rewrite E, H. reflexivity. }
  induction s as [|c s IH]; intros bol b g r H; cbn [PyRe.search_from] in H.
  - destruct bol; discriminate.
  - destruct (if bol then PyRe.match_here (String c s) else None) as [[g' r']|] eqn:E.
    + injection H as <- <- <-. destruct (Hhere _ _ _ _ E) as [-> Hs].
      split; [exact Hs|]. split; [reflexivity|]. intros C; contradiction.
    + destruct (PyRe.search_from (Ascii.eqb c (ascii_of_nat 10)) s)
        as [[[b' g'] r']|] eqn:E'; [|discriminate].
      injection H as <- <- <-.
      destruct (IH _ _ _ _ E') as (Hs & Hnil & Hcons).
      split; [simpl; f_equal; exact Hs|]. split; [discriminate|].
      intros _. destruct b' as [|x b'].
      * specialize (Hnil eq_refl). apply Ascii.eqb_eq in Hnil. subst c.
        exists "". reflexivity.
      * destruct Hcons as [b'' Hb]; [discriminate|].
        exists (String c b''). simpl. rewrite Hb. reflexivity.
Qed.

(** [re.search] finds a match exactly when the text contains one. *)
Lemma search_none_iff content :
  PyRe.search content = None <-> ~ contains_match content.
Proof.
  split.
  - intros H (b & g & r & -> & Hstart). revert H.
    apply search_from_complete; auto.
  - intros H. destruct (PyRe.search content) as [[[b g] r]|] eqn:E; [|reflexivity].
    exfalso. apply H. exists b, g, r.
    destruct (search_from_sound _ _ _ _ _ E) as (Hs & _ & Hcons).
    split; [exact Hs|]. destruct b as [|x b]; [left; reflexivity|].
    right. apply Hcons. discriminate.
Qed.

(** The patcher on a target file without a match, called with as many left
    bounds as right bounds. *)
Lemma patcher_block_not_found s content write_error :
  rust_file s = Present content write_error ->
  ~ contains_match content ->
  List.length (left_bounds s) = List.length (right_bounds s) ->
  rust_file (calculate_and_update_rust_file s) = Present content write_error
  /\ file_writes (calculate_and_update_rust_file s) = file_writes s
  /\ stdout (calculate_and_update_rust_file s)
     = (stdout s
        ++ [block_header;
            rust_array_string (final_x_positions (left_bounds s) (right_bounds s));
            dash_line;
            block_not_found_message])%list.
Proof.
  intros Hf Hno Hlen. apply search_none_iff in Hno.
  unfold calculate_and_update_rust_file.
  rewrite len_eqb, Hlen, Nat.eqb_refl. simp. rewrite Hf, Hno. simp.
  rewrite Hf, <- !app_assoc. auto.
Qed.

(** ** When the patcher is called *)

Lemma rust_array_string_lines positions :
  rust_array_string positions
  = array_open ++ concat_strings (map array_line positions) ++ "];".
Proof.
  unfold rust_array_string, array_open.
  generalize ("const UNSCALED_RELATIVE_X_POSITIONS: &[f32] = &[" ++ LF) as acc.
  induction positions as [|pos positions IH]; intros acc; cbn [fold_left map concat_strings].
  - reflexivity.
  - rewrite IH. fold (array_line pos). rewrite !string_app_assoc. reflexivity.
Qed.

Lemma block_not_mark positions : ~ patcher_mark (rust_array_string positions).
Proof.
  rewrite rust_array_string_lines. intros [H|H]; simpl in H; discriminate.
Qed.

(** A call of the patcher with as many left bounds as right bounds: what is
    printed, none of it the mismatch message. *)
Lemma patcher_stdout_matched s :
  List.length (left_bounds s) = List.length (right_bounds s) ->
  exists msg,
    stdout (calculate_and_update_rust_file s)
    = (stdout s
       ++ [block_header;
           rust_array_string (final_x_positions (left_bounds s) (right_bounds s));
           dash_line; msg])%list
    /\ ~ patcher_mark msg.
Proof.
  intros H. unfold calculate_and_update_rust_file.
  rewrite len_eqb, H, Nat.eqb_refl. simp.
  destruct (rust_file s) as [|err|content [[werr|werr written]|]]; simp;
    try destruct (PyRe.search content); simp;
    eexists; (split; [rewrite <- !app_assoc; reflexivity|]);
    intros [E|E]; simpl in E; discriminate.
Qed.


Ltac not_mark :=
  let E := fresh "E" in
  intros [E|E]; cbn -[format_17e str_int PyList.len] in E; discriminate E.

Lemma no_patcher_call_refl s : no_patcher_call s s.
Proof.
  repeat split. exists []. rewrite app_nil_r. split; [reflexivity|constructor].
Qed.

Lemma confirm_outcome s :
  calls_patcher s (on_key_press s "space")
  \/ no_patcher_call s (on_key_press s "space").
Proof.
  unfold on_key_press, set_current, get_current. simp.
  destruct (current_list s) eqn:Hc; simp.
  - right. rewrite ?Hc. simp. repeat split.
    eexists. split; [reflexivity|]. constructor; [not_mark|constructor].
  - rewrite len_ltb.
    destruct (Nat.ltb_spec (List.length (right_bounds s)) (List.length (left_bounds s)))
      as [Hlt|Hge]; [|right; apply no_patcher_call_refl].
    simp. rewrite ?Hc. simp. rewrite len_eqb. unfold PyList.insert0. simpl List.length.
    destruct (Nat.eqb_spec (S (List.length (right_bounds s))) (List.length (left_bounds s)))
      as [E|E].
    + left. eexists. eexists. split; [reflexivity|]. simp.
      split; [symmetry; exact E|]. split; [lia|].
      split; [reflexivity|]. split; [reflexivity|].
      rewrite <- app_assoc. split; [reflexivity|].
      constructor; [not_mark|]. constructor; [not_mark|constructor].
    + right. simp. repeat split.
      eexists. split; [reflexivity|]. constructor; [not_mark|constructor].
Qed.

Lemma undo_outcome s : no_patcher_call s (on_key_press s "BackSpace").
Proof.
  unfold on_key_press, set_current, get_current. simp. rewrite undo_guard.
  destruct (current_list s) eqn:Hc.
  - destruct (left_bounds s) as [|a t] eqn:El; [apply no_patcher_call_refl|].
    destruct (pop_nonempty (a :: t) eq_refl) as (x & l & ->).
    simp. rewrite ?Hc. simp. repeat split.
    eexists. split; [reflexivity|]. constructor; [not_mark|constructor].
  - destruct (right_bounds s) as [|a t] eqn:El; [apply no_patcher_call_refl|].
    destruct (pop_nonempty (a :: t) eq_refl) as (x & l & ->).
    simp. rewrite ?Hc. simp. repeat split.
    eexists. split; [reflexivity|]. constructor; [not_mark|constructor].
Qed.

Lemma next_phase_outcome s : no_patcher_call s (on_key_press s "Return").
Proof.
  unfold on_key_press. simp.
  destruct (current_list s) eqn:Hc; simp; [|apply no_patcher_call_refl].
  repeat split. eexists. split; [reflexivity|]. constructor; [not_mark|constructor].
Qed.

Lemma dispatch_outcome s e :
  calls_patcher s (dispatch s e) \/ no_patcher_call s (dispatch s e).
Proof.
  destruct e as [k|x w]; simpl dispatch.
  - destruct (on_key_press_cases s k) as [E|[E|[E|E]]]; rewrite E.
    + apply confirm_outcome.
    + right. apply undo_outcome.
    + right. apply next_phase_outcome.
    + right. apply no_patcher_call_refl.
  - right. destruct (on_mouse_move_frame s x w) as (_ & _ & _ & Hr & Ho & Hf & Hw).
    repeat split; try assumption. exists []. rewrite app_nil_r.
    split; [assumption|constructor].
Qed.

(** A session on a target file without a match: the file is never
    written, and once the loop is quit the last line printed is the report
    that the block was not found. *)
Lemma session_block_not_found content write_error events : forall s,
  ~ contains_match content ->
  rust_file s = Present content write_error ->
  file_writes s = [] ->
  running s = true ->
  rust_file (mainloop s events) = Present content write_error
  /\ file_writes (mainloop s events) = []
  /\ (running (mainloop s events) = false ->
      exists lines,
        stdout (mainloop s events) = (lines ++ [block_not_found_message])%list).
Proof.
  induction events as [|e rest IH]; intros s Hno Hf Hw Hrun; simpl.
  - split; [exact Hf|]. split; [exact Hw|]. rewrite Hrun. discriminate.
  - rewrite Hrun. destruct (dispatch_outcome s e) as [Hcall|Hnocall].
    + destruct Hcall as (s1 & lines & -> & Hlen & _ & Hf1 & Hw1 & _).
      rewrite Hf in Hf1.
      destruct (patcher_block_not_found s1 content write_error Hf1 Hno Hlen)
        as (Hf2 & Hw2 & Hout).
      assert (Hstop : forall s0, mainloop (master_quit s0) rest = master_quit s0)
        by (intros s0; destruct rest; reflexivity).
      rewrite Hstop. cbn [master_quit running rust_file file_writes stdout].
      split; [exact Hf2|]. split; [congruence|]. intros _.
      rewrite Hout. eexists (_ ++ [_; _; _])%list.
      rewrite <- app_assoc. reflexivity.
    + destruct Hnocall as (Hr & Hf1 & Hw1 & _).
      apply IH; congruence.
Qed.

(** C7: when the content of the target file contains no match of the
    pattern, the patcher, called with as many left bounds as right bounds,
    reports that the block was not found and leaves the file as it was,
    with nothing written; and in a whole session on such a file, whatever the
    events, the file is never written, and once the collection is complete
    the last line printed is that report. *)
Theorem pattern_not_found_leaves_file content write_error :
  ~ contains_match content ->
  (forall s,
      rust_file s = Present content write_error ->
      List.length (left_bounds s) = List.length (right_bounds s) ->
      rust_file (calculate_and_update_rust_file s) = Present content write_error
      /\ file_writes (calculate_and_update_rust_file s) = file_writes s
      /\ stdout (calculate_and_update_rust_file s)
         = (stdout s
            ++ [block_header;
                rust_array_string (final_x_positions (left_bounds s) (right_bounds s));
                dash_line;
                block_not_found_message])%list)
  /\ (forall path events,
        rust_file (mainloop (init path (Present content write_error)) events)
        = Present content write_error
        /\ file_writes (mainloop (init path (Present content write_error)) events) = []
        /\ (running (mainloop (init path (Present content write_error)) events) = false ->
            exists lines,
              stdout (mainloop (init path (Present content write_error)) events)
              = (lines ++ [block_not_found_message])%list)).
Proof.
  intros Hno. split.
  - intros s Hf Hlen. apply patcher_block_not_found; assumption.
  - intros path events. apply session_block_not_found; auto.
Qed.

(** On the state [full_without_declaration]. *)
Lemma pattern_not_found_leaves_file_witness :
  rust_file (calculate_and_update_rust_file full_without_declaration)
  = Present "fn main() {}" None
  /\ file_writes (calculate_and_update_rust_file full_without_declaration) = []
  /\ In block_not_found_message
        (stdout (calculate_and_update_rust_file full_without_declaration)).
Proof.
  assert (Hno : ~ contains_match "fn main() {}")
    by (apply search_none_iff; vm_compute; reflexivity).
  destruct (proj1 (pattern_not_found_leaves_file "fn main() {}" None Hno)
              full_without_declaration eq_refl eq_refl) as (H1 & H2 & H3).
  split; [exact H1|]. split; [exact H2|].
  rewrite H3. apply in_or_app. right. simpl. auto.
Defined.

Lemma not_in_app_marks (l lines : list string) (m : string) :
  patcher_mark m ->
  ~ In m l ->
  Forall (fun x => ~ patcher_mark x) lines ->
  ~ In m (l ++ lines)%list.
Proof.
  intros Hm Hl Hlines Hin. apply in_app_or in Hin as [Hin|Hin]; [auto|].
  rewrite Forall_forall in Hlines. apply (Hlines m Hin Hm).
Qed.

Lemma dispatch_patcher_invariant s e :
  running s = true ->
  patcher_invariant s -> patcher_invariant (dispatch s e).
Proof.
  intros Hrun (Hmis & Hhead & _).
  destruct (dispatch_outcome s e) as [Hcall|Hno].
  - destruct Hcall as (s1 & lines & -> & Hlen & Hpos & _ & _ & Hout & Hlines).
    destruct (patcher_stdout_matched s1 Hlen) as (msg & Hp & Hmsg).
    unfold patcher_invariant. simp.
    rewrite patcher_left_bounds, patcher_right_bounds.
    split; [|split; [discriminate | auto]].
    change (stdout (master_quit (calculate_and_update_rust_file s1)))
      with (stdout (calculate_and_update_rust_file s1)).
    rewrite Hp, Hout. intros Hin. apply in_app_or in Hin as [Hin|Hin].
    + revert Hin. apply not_in_app_marks; [left; reflexivity|exact Hmis|exact Hlines].
    + simpl in Hin. destruct Hin as [E|[E|[E|[E|[]]]]].
      * discriminate E.
      * apply (block_not_mark _ (or_introl E)).
      * discriminate E.
      * apply Hmsg. left. exact E.
  - destruct Hno as (Hr & _ & _ & lines & Hout & Hlines).
    unfold patcher_invariant. rewrite Hr, Hout.
    split; [apply not_in_app_marks; [left; reflexivity|exact Hmis|exact Hlines]|].
    split; [|rewrite Hrun; discriminate].
    intros _. apply not_in_app_marks; [right; reflexivity|auto|exact Hlines].
Qed.

Lemma mainloop_patcher_invariant events : forall s,
  patcher_invariant s -> patcher_invariant (mainloop s events).
Proof.
  induction events as [|e rest IH]; intros s H; simpl.
  - exact H.
  - destruct (running s) eqn:Hrun; [|exact H].
    apply IH, dispatch_patcher_invariant; assumption.
Qed.

Lemma init_patcher_invariant path f : patcher_invariant (init path f).
Proof.
  split; [intros []|]. split; [intros _ []|discriminate].
Qed.

Lemma idle_dispatch s e :
  idle s ->
  idle (dispatch s e)
  /\ stdout (dispatch s e) = stdout s
  /\ running (dispatch s e) = running s
  /\ file_writes (dispatch s e) = file_writes s
  /\ rust_file (dispatch s e) = rust_file s.
Proof.
  intros (Hc & Hl & Hr).
  assert (Hidle : idle s) by (repeat split; assumption).
  destruct e as [k|x w]; simpl dispatch.
  - assert (E : on_key_press s k = s); [|rewrite E; auto 6].
    destruct (on_key_press_cases s k) as [E|[E|[E|E]]]; rewrite E.
    + apply confirm_right_full; [exact Hc|]. rewrite Hl. simpl. lia.
    + apply undo_empty. unfold get_current. rewrite Hc. exact Hr.
    + apply next_phase_right, Hc.
    + reflexivity.
  - destruct (on_mouse_move_frame s x w) as (El & Er & Ec & Erun & Eo & Ef & Ew).
    unfold idle. rewrite El, Er, Ec. auto 10.
Qed.

Lemma idle_mainloop events : forall s,
  idle s ->
  stdout (mainloop s events) = stdout s
  /\ running (mainloop s events) = running s
  /\ file_writes (mainloop s events) = file_writes s
  /\ rust_file (mainloop s events) = rust_file s.
Proof.
  induction events as [|e rest IH]; intros s H; simpl.
  - auto.
  - destruct (running s) eqn:Hrun; [|auto].
    destruct (idle_dispatch s e H) as (Hi & Eo & Er & Ew & Ef).
    destruct (IH _ Hi) as (Eo' & Er' & Ew' & Ef').
    rewrite Eo', Er', Ew', Ef', Eo, Er, Ew, Ef. auto.
Qed.

(** C10: in every state the event loop reaches, the mismatch message has
    never been printed; any event either calls the patcher on as many left
    bounds as right bounds, at least one, or does not call it; if the header
    of the block has been printed, the bounds are as many on both sides,
    and at least one.  In particular, with no left bound when the right
    bounds are selected, Confirm does nothing, and whatever events follow,
    nothing is printed, nothing is written and the loop is not quit. *)
Theorem patcher_called_on_matched_bounds path f events :
  let s := mainloop (init path f) events in
  ~ In mismatch_message (stdout s)
  /\ (forall e, calls_patcher s (dispatch s e) \/ no_patcher_call s (dispatch s e))
  /\ (In block_header (stdout s) ->
      List.length (left_bounds s) = List.length (right_bounds s)
      /\ (0 < List.length (left_bounds s))%nat)
  /\ (current_list s = RightBounds -> left_bounds s = [] ->
      dispatch s Confirm = s
      /\ forall more,
           stdout (mainloop s more) = stdout s
           /\ running (mainloop s more) = running s
           /\ file_writes (mainloop s more) = file_writes s
           /\ rust_file (mainloop s more) = rust_file s).
Proof.
  intros s.
  destruct (mainloop_patcher_invariant events (init path f)
              (init_patcher_invariant path f)) as (Hmis & Hhead & Hquit).
  destruct (mainloop_invariant events (init path f) (init_invariant path f))
    as [Hle _].
  fold s in Hmis, Hhead, Hquit, Hle.
  split; [exact Hmis|]. split; [intros e; apply dispatch_outcome|].
  split.
  - intros Hin. destruct (running s) eqn:Hrun; [|auto].
    exfalso. apply (Hhead eq_refl Hin).
  - intros Hc Hl.
    assert (Hidle : idle s).
    { repeat split; [exact Hc|exact Hl|].
      rewrite Hl in Hle. simpl in Hle.
      destruct (right_bounds s); [reflexivity|simpl in Hle; lia]. }
    split; [|intros more; apply idle_mainloop, Hidle].
    simpl dispatch. apply confirm_right_full; [exact Hc|]. rewrite Hl. simpl. lia.
Qed.

(** On the session [switch_without_left]: Confirm does nothing and the loop
    keeps running. *)
Lemma patcher_called_on_matched_bounds_witness :
  current_list switch_without_left = RightBounds
  /\ left_bounds switch_without_left = []
  /\ dispatch switch_without_left Confirm = switch_without_left
  /\ running (mainloop switch_without_left
                       [Confirm; Motion 240 800; Confirm; Undo; Confirm]) = true.
Proof.
  assert (Hc : current_list switch_without_left = RightBounds)
    by (vm_compute; reflexivity).
  assert (Hl : left_bounds switch_without_left = []) by (vm_compute; reflexivity).
  pose proof (patcher_called_on_matched_bounds "src/main.rs" Missing [NextPhase])
    as (_ & _ & _ & H). fold switch_without_left in H.
  destruct (H Hc Hl) as [H1 H2].
  split; [exact Hc|]. split; [exact Hl|]. split; [exact H1|].
  destruct (H2 [Confirm; Motion 240 800; Confirm; Undo; Confirm]) as (_ & Hr & _).
  transitivity (running switch_without_left); [exact Hr | vm_compute; reflexivity].
Defined.

(** ** The printed form of a float *)

Lemma string_length_app (a b : string) :
  String.length (a ++ b) = (String.length a + String.length b)%nat.
Proof. induction a as [|c a IH]; simpl; [reflexivity | rewrite IH; reflexivity]. Qed.

Lemma all_digits_app (a b : string) :
  all_digits (a ++ b) = all_digits a && all_digits b.
Proof.
  induction a as [|c a IH]; simpl; [reflexivity|].
  rewrite IH, andb_assoc. reflexivity.
Qed.

Lemma count_digits_app (a b : string) :
  count_digits (a ++ b) = (count_digits a + count_digits b)%nat.
Proof.
  induction a as [|c a IH]; simpl; [reflexivity|].
  destruct (is_digit c); rewrite IH; reflexivity.
Qed.


Lemma digit_char_is_digit d : 0 <= d < 10 -> is_digit (PyFormat.digit_char d) = true.
Proof.
  intros H.
  assert (E : d = 0 \/ d = 1 \/ d = 2 \/ d = 3 \/ d = 4 \/ d = 5 \/ d = 6
              \/ d = 7 \/ d = 8 \/ d = 9) by lia.
  repeat (destruct E as [->|E]; [reflexivity|]). subst d. reflexivity.
Qed.



Lemma digits_fixed_all_digits w : forall n,
  all_digits (PyFormat.digits_fixed w n) = true.
Proof.
  induction w as [|w IH]; intros n; cbn [PyFormat.digits_fixed]; [reflexivity|].
  rewrite all_digits_app, IH. cbn [all_digits andb].
  rewrite digit_char_is_digit; [reflexivity|]. apply Z.mod_pos_bound. lia.
Qed.






















(** ** Further properties of the program *)

(** *** What the handlers leave alone *)

Lemma patcher_sample s :
  mouse_x_percentage (calculate_and_update_rust_file s) = mouse_x_percentage s
  /\ current_x_label (calculate_and_update_rust_file s) = current_x_label s
  /\ status_label (calculate_and_update_rust_file s) = status_label s
  /\ rust_file_path (calculate_and_update_rust_file s) = rust_file_path s.
Proof.
  unfold calculate_and_update_rust_file.
  destruct (negb (PyList.len (left_bounds s) =? PyList.len (right_bounds s)));
    [auto|]; cbn;
    destruct (rust_file s) as [|err|content [[werr|werr written]|]]; auto;
    destruct (PyRe.search content); auto.
Qed.

(** A key press never touches the sample nor its readout. *)
Lemma on_key_press_sample s k :
  mouse_x_percentage (on_key_press s k) = mouse_x_percentage s
  /\ current_x_label (on_key_press s k) = current_x_label s.
Proof.
  destruct (on_key_press_cases s k) as [E|[E|[E|E]]]; rewrite E; clear E.
  - unfold on_key_press, set_current, get_current. simp.
    destruct (current_list s) eqn:Hc; simp; rewrite ?Hc; simp; [auto|].
    destruct (PyList.len (right_bounds s) <? PyList.len (left_bounds s)); simp;
      [|auto].
    destruct (PyList.len _ =? PyList.len _); simp; [|auto].
    match goal with
    | |- context [calculate_and_update_rust_file ?s1] =>
        destruct (patcher_sample s1) as (-> & -> & _)
    end. auto.
  - unfold on_key_press, set_current, get_current. simp. rewrite undo_guard.
    destruct (current_list s) eqn:Hc.
    + destruct (left_bounds s) as [|a t]; [auto|].
      destruct (pop_nonempty (a :: t) eq_refl) as (x & l & ->).
      simp. rewrite Hc. simp. auto.
    + destruct (right_bounds s) as [|a t]; [auto|].
      destruct (pop_nonempty (a :: t) eq_refl) as (x & l & ->).
      simp. rewrite Hc. simp. auto.
  - unfold on_key_press. simp. destruct (current_list s); simp; auto.
  - auto.
Qed.

(** *** The readout *)

Lemma dispatch_readout s e :
  readout_in_sync s -> readout_in_sync (dispatch s e).
Proof.
  unfold readout_in_sync. intros H. destruct e as [k|x w]; simpl dispatch.
  - destruct (on_key_press_sample s k) as [-> ->]. exact H.
  - unfold on_mouse_move. destruct (w >? 0); [reflexivity|exact H].
Qed.

(** X1: in every state the event loop reaches, the readout is the text
    [Current X: ] followed by the current sample printed with [.4f]. *)
Theorem readout_shows_sample path f events :
  readout_in_sync (mainloop (init path f) events).
Proof.
  assert (H : readout_in_sync (init path f)) by (vm_compute; reflexivity).
  revert H. generalize (init path f) as s.
  induction events as [|e rest IH]; intros s H; simpl.
  - exact H.
  - destruct (running s); [|exact H]. apply IH, dispatch_readout, H.
Qed.

(** *** The status line *)

Ltac status_simp :=
  unfold status_in_sync, left_status, right_status; simp.

Lemma confirm_status s :
  running s = true -> status_in_sync s -> status_in_sync (on_key_press s "space").
Proof.
  intros Hrun H. destruct (current_list s) eqn:Hc.
  - unfold on_key_press, set_current, get_current. simp. rewrite Hc.
    status_simp. rewrite Hrun, Hc. left. reflexivity.
  - destruct (Nat.lt_ge_cases (List.length (right_bounds s))
                              (List.length (left_bounds s))) as [Hlt|Hge];
      [|rewrite (confirm_right_full s Hc Hge); exact H].
    unfold on_key_press, set_current, get_current. simp. rewrite Hc. simp.
    rewrite len_ltb. apply Nat.ltb_lt in Hlt. rewrite Hlt. simp.
    destruct (PyList.len _ =? PyList.len _).
    + unfold status_in_sync. simp.
      match goal with
      | |- context [calculate_and_update_rust_file ?s1] =>
          destruct (patcher_sample s1) as (_ & _ & -> & _)
      end. reflexivity.
    + status_simp. rewrite Hrun, Hc. reflexivity.
Qed.

Lemma undo_status s :
  running s = true -> status_in_sync s -> status_in_sync (on_key_press s "BackSpace").
Proof.
  intros Hrun H. unfold on_key_press, set_current, get_current. simp.
  rewrite undo_guard. destruct (current_list s) eqn:Hc.
  - destruct (left_bounds s) as [|a t] eqn:El; [exact H|].
    destruct (pop_nonempty (a :: t) eq_refl) as (x & l & ->).
    simp. rewrite Hc. status_simp. rewrite Hrun, Hc. left. reflexivity.
  - destruct (right_bounds s) as [|a t] eqn:El; [exact H|].
    destruct (pop_nonempty (a :: t) eq_refl) as (x & l & ->).
    simp. rewrite Hc. status_simp. rewrite Hrun, Hc. reflexivity.
Qed.

Lemma next_phase_status s :
  running s = true -> status_in_sync s -> status_in_sync (on_key_press s "Return").
Proof.
  intros Hrun H. unfold on_key_press. simp.
  destruct (current_list s) eqn:Hc; simp; [|exact H].
  status_simp. rewrite Hrun. reflexivity.
Qed.

Lemma dispatch_status s e :
  running s = true -> status_in_sync s -> status_in_sync (dispatch s e).
Proof.
  intros Hrun H. destruct e as [k|x w]; simpl dispatch.
  - destruct (on_key_press_cases s k) as [E|[E|[E|E]]]; rewrite E.
    + apply confirm_status; assumption.
    + apply undo_status; assumption.
    + apply next_phase_status; assumption.
    + exact H.
  - unfold on_mouse_move. destruct (w >? 0); [|exact H].
    revert H. status_simp. auto.
Qed.

(** X2: in every state the event loop reaches, the status line agrees with
    the phase and the lists: the number of left bounds while they are
    collected, the numbers of right and left bounds while the right bounds
    are collected, and the completion message once the loop is quit. *)
Theorem status_shows_counts path f events :
  status_in_sync (mainloop (init path f) events).
Proof.
  assert (H : status_in_sync (init path f)) by (right; split; reflexivity).
  revert H. generalize (init path f) as s.
  induction events as [|e rest IH]; intros s H; simpl.
  - exact H.
  - destruct (running s) eqn:Hrun; [|exact H].
    apply IH, dispatch_status; assumption.
Qed.

(** *** Pointer motions *)

(** X3: a pointer motion in a window without width changes nothing, and a
    motion in a window with a width overwrites what the motion before it
    recorded: only the last sample counts. *)
Theorem pointer_motion_overwrites s x1 w1 x2 w2 :
  (w2 <= 0 -> on_mouse_move s x2 w2 = s)
  /\ (0 < w2 ->
      on_mouse_move (on_mouse_move s x1 w1) x2 w2 = on_mouse_move s x2 w2).
Proof.
  split; intros Hw; unfold on_mouse_move.
  - replace (w2 >? 0) with false by (symmetry; rewrite Z.gtb_ltb; apply Z.ltb_ge; lia).
    reflexivity.
  - replace (w2 >? 0) with true by (symmetry; rewrite Z.gtb_ltb; apply Z.ltb_lt; lia).
    destruct (w1 >? 0); reflexivity.
Qed.

(** On a window of 800 pixels, the pointer moved to 80 and then to 400; and
    a motion reported with width 0. *)
Lemma pointer_motion_overwrites_witness :
  on_mouse_move two_left_then_switch 5 0 = two_left_then_switch
  /\ on_mouse_move (on_mouse_move two_left_then_switch 80 800) 400 800
     = on_mouse_move two_left_then_switch 400 800.
Proof.
  destruct (pointer_motion_overwrites two_left_then_switch 80 800 5 0) as [H1 _].
  destruct (pointer_motion_overwrites two_left_then_switch 80 800 400 800) as [_ H2].
  split; [apply H1; lia | apply H2; lia].
Defined.

(** *** Sessions in parts *)

Lemma mainloop_app e1 : forall s e2,
  mainloop s (e1 ++ e2) = mainloop (mainloop s e1) e2.
Proof.
  induction e1 as [|e rest IH]; intros s e2; simpl.
  - reflexivity.
  - destruct (running s) eqn:Hrun; [apply IH|].
    destruct e2; simpl; [reflexivity|rewrite Hrun; reflexivity].
Qed.

Lemma mainloop_quit s events : running s = false -> mainloop s events = s.
Proof. intros H. destruct events; simpl; [reflexivity|rewrite H; reflexivity]. Qed.

(** *** When the session is over *)

Lemma dispatch_completion s e :
  running s = true ->
  collection_invariant s ->
  completion_invariant s -> completion_invariant (dispatch s e).
Proof.
  unfold completion_invariant. intros Hrun [Hle Hemp] H. rewrite Hrun in H.
  destruct e as [k|x w]; simpl dispatch.
  - destruct (on_key_press_cases s k) as [E|[E|[E|E]]]; rewrite E; clear E.
    + destruct (current_list s) eqn:Hc.
      * destruct (confirm_left s Hc) as (_ & _ & Hc' & Hr').
        rewrite Hr', Hrun, Hc'. discriminate.
      * destruct (Nat.lt_ge_cases (List.length (right_bounds s))
                                  (List.length (left_bounds s))) as [Hlt|Hge].
        -- destruct (confirm_right s Hc Hlt) as (Hl' & Hr' & Hc' & Hrun').
           rewrite Hrun', Hl', Hr', Hc'. simpl List.length.
           destruct (Nat.eqb_spec (S (List.length (right_bounds s)))
                                  (List.length (left_bounds s))) as [E|E].
           ++ split; [reflexivity|]. split; [auto|lia].
           ++ rewrite Hrun. intros _. right. lia.
        -- rewrite (confirm_right_full s Hc Hge), Hrun, Hc. exact H.
    + destruct (current_list s) eqn:Hc.
      * destruct (PyList.pop (left_bounds s)) as [[x l]|] eqn:Hp.
        -- destruct (undo_left s x l Hc Hp) as (_ & _ & Hc' & Hr').
           rewrite Hr', Hrun, Hc'. discriminate.
        -- rewrite undo_empty; [rewrite Hrun, Hc; discriminate|].
           unfold get_current. rewrite Hc. apply pop_none, Hp.
      * destruct (PyList.pop (right_bounds s)) as [[x l]|] eqn:Hp.
        -- destruct (undo_right s x l Hc Hp) as (Hl' & Hr' & Hc' & Hrun').
           rewrite Hrun', Hrun, Hl', Hr', Hc'. intros _.
           apply pop_length in Hp. destruct (H eq_refl) as [E|E]; [auto|right; lia].
        -- rewrite undo_empty; [rewrite Hrun, Hc; exact H|].
           unfold get_current. rewrite Hc. apply pop_none, Hp.
    + destruct (current_list s) eqn:Hc.
      * destruct (next_phase_left s Hc) as (Hl' & Hr' & Hc' & Hrun').
        rewrite Hrun', Hrun, Hl', Hr', Hc', (Hemp eq_refl). intros _.
        destruct (left_bounds s); [left; reflexivity|right; simpl; lia].
      * rewrite (next_phase_right s Hc), Hrun, Hc. exact H.
    + rewrite Hrun. exact H.
  - destruct (on_mouse_move_frame s x w) as (Hl' & Hr' & Hc' & Hrun' & _).
    rewrite Hrun', Hrun, Hl', Hr', Hc'. exact H.
Qed.

Lemma mainloop_completion events : forall s,
  collection_invariant s ->
  completion_invariant s -> completion_invariant (mainloop s events).
Proof.
  induction events as [|e rest IH]; intros s Hi H; simpl.
  - exact H.
  - destruct (running s) eqn:Hrun; [|exact H].
    apply IH; [apply dispatch_invariant, Hi|apply dispatch_completion; assumption].
Qed.

Lemma init_completion path f : completion_invariant (init path f).
Proof. unfold completion_invariant. simpl. discriminate. Qed.

(** X4: in every state the event loop reaches, the loop has been quit
    exactly when the right bounds are selected and are as many as the left
    bounds, with at least one: the session ends with the Confirm that gives
    the last string its right bound, and not before. *)
Theorem session_over_iff_bounds_matched path f events :
  running (mainloop (init path f) events) = false
  <-> (current_list (mainloop (init path f) events) = RightBounds
       /\ List.length (left_bounds (mainloop (init path f) events))
          = List.length (right_bounds (mainloop (init path f) events))
       /\ (0 < List.length (left_bounds (mainloop (init path f) events)))%nat).
Proof.
  pose proof (mainloop_completion events (init path f)
                (init_invariant path f) (init_completion path f)) as H.
  unfold completion_invariant in H.
  destruct (running (mainloop (init path f) events)).
  - split; [discriminate|]. intros (Hc & Hlen & Hpos).
    destruct (H Hc) as [E|E]; [rewrite E in Hpos; simpl in Hpos; lia|lia].
  - split; [intros _; exact H|reflexivity].
Qed.

(** The session [two_string_session] is over, with two bounds on each side. *)
Lemma session_over_iff_bounds_matched_witness :
  current_list (mainloop (init "src/main.rs" Missing) two_string_session) = RightBounds
  /\ List.length (left_bounds (mainloop (init "src/main.rs" Missing) two_string_session))
     = List.length (right_bounds (mainloop (init "src/main.rs" Missing) two_string_session))
  /\ (0 < List.length
            (left_bounds (mainloop (init "src/main.rs" Missing) two_string_session)))%nat.
Proof.
  assert (H : running (mainloop (init "src/main.rs" Missing) two_string_session) = false)
    by (vm_compute; reflexivity).
  exact (proj1 (session_over_iff_bounds_matched "src/main.rs" Missing two_string_session) H).
Defined.

(** X5: while the left bounds are collected, in every state the event loop
    reaches, there is no right bound yet and the loop is running. *)
Theorem left_phase_has_no_right_bound path f events :
  current_list (mainloop (init path f) events) = LeftBounds ->
  right_bounds (mainloop (init path f) events) = []
  /\ running (mainloop (init path f) events) = true.
Proof.
  intros Hc.
  destruct (mainloop_invariant events (init path f) (init_invariant path f))
    as [_ Hemp].
  split; [apply Hemp, Hc|].
  pose proof (mainloop_completion events (init path f)
                (init_invariant path f) (init_completion path f)) as H.
  unfold completion_invariant in H.
  destruct (running (mainloop (init path f) events)); [reflexivity|].
  destruct H as [H _]. congruence.
Qed.

(** After two left bounds and an Undo. *)
Lemma left_phase_has_no_right_bound_witness :
  right_bounds (mainloop (init "src/main.rs" Missing)
                         [Motion 80 800; Confirm; Motion 400 800; Confirm; Undo])
  = []
  /\ running (mainloop (init "src/main.rs" Missing)
                       [Motion 80 800; Confirm; Motion 400 800; Confirm; Undo])
     = true.
Proof.
  assert (H : current_list
                (mainloop (init "src/main.rs" Missing)
                          [Motion 80 800; Confirm; Motion 400 800; Confirm; Undo])
              = LeftBounds) by (vm_compute; reflexivity).
  exact (left_phase_has_no_right_bound "src/main.rs" Missing _ H).
Defined.

(** *** What the patcher writes *)

Lemma search_sound content before g rest :
  PyRe.search content = Some (before, g, rest) ->
  pattern_match content before g rest.
Proof.
  intros E. destruct (search_from_sound _ _ _ _ _ E) as (Hs & _ & Hcons).
  split; [exact Hs|]. destruct before as [|x b]; [left; reflexivity|].
  right. apply Hcons. discriminate.
Qed.

Lemma patcher_file_outcome s :
  (rust_file (calculate_and_update_rust_file s) = rust_file s
   /\ file_writes (calculate_and_update_rust_file s) = file_writes s)
  \/ (exists content w before g rest,
        rust_file s = Present content w
        /\ List.length (left_bounds s) = List.length (right_bounds s)
        /\ PyRe.search content = Some (before, g, rest)
        /\ ((w = None
             /\ rust_file (calculate_and_update_rust_file s)
                = Present (before
                           ++ rust_array_string
                                (final_x_positions (left_bounds s) (right_bounds s))
                           ++ rest) None
             /\ file_writes (calculate_and_update_rust_file s)
                = (file_writes s
                   ++ [(before
                        ++ rust_array_string
                             (final_x_positions (left_bounds s) (right_bounds s))
                        ++ rest)%string])%list)
            \/ (exists err written,
                  w = Some (WriteFails err written)
                  /\ rust_file (calculate_and_update_rust_file s)
                     = Present
                         (substring 0 written
                            (before
                             ++ rust_array_string
                                  (final_x_positions (left_bounds s) (right_bounds s))
                             ++ rest)) w
                  /\ file_writes (calculate_and_update_rust_file s)
                     = (file_writes s
                        ++ [substring 0 written
                              (before
                               ++ rust_array_string
                                    (final_x_positions (left_bounds s) (right_bounds s))
                               ++ rest)])%list))).
Proof.
  unfold calculate_and_update_rust_file. rewrite len_eqb.
  destruct (Nat.eqb_spec (List.length (left_bounds s)) (List.length (right_bounds s)))
    as [Hlen|Hlen]; simp; [|left; auto].
  destruct (rust_file s) as [|err|content w] eqn:Hf; simp; try (left; auto; fail).
  destruct (PyRe.search content) as [[[before g] rest]|] eqn:Hs; simp;
    [|left; auto].
  unfold PyRe.sub_first. rewrite Hs.
  destruct w as [[err|err written]|]; simp.
  - left. auto.
  - right. exists content, (Some (WriteFails err written)), before, g, rest.
    repeat (split; [assumption || reflexivity|]). right.
    exists err, written. auto.
  - right. exists content, None, before, g, rest.
    repeat (split; [assumption || reflexivity|]). left. auto.
Qed.

Lemma patcher_file_kept s :
  List.length (left_bounds s) <> List.length (right_bounds s)
  \/ rust_file s = Missing
  \/ (exists err, rust_file s = Unreadable err)
  \/ (exists content w, rust_file s = Present content w /\ PyRe.search content = None)
  \/ (exists content err, rust_file s = Present content (Some (OpenFails err))) ->
  rust_file (calculate_and_update_rust_file s) = rust_file s
  /\ file_writes (calculate_and_update_rust_file s) = file_writes s.
Proof.
  intros H.
  destruct (patcher_file_outcome s)
    as [Hkept|(content & w & before & g & rest & Hf & Hlen & Hs & Hw)];
    [exact Hkept|exfalso].
  destruct H as [H|[H|[(err & H)|[(c & w' & H & Hn)|(c & err & H)]]]].
  - contradiction.
  - congruence.
  - congruence.
  - rewrite Hf in H. injection H as <- <-. congruence.
  - rewrite Hf in H. injection H as <- ->.
    destruct Hw as [(E & _)|(e' & n & E & _)]; discriminate.
Qed.

(** X6: the patcher touches nothing but the output and the file.  It
    leaves the file as it was, with nothing written, when the lengths
    differ, when the file is missing or cannot be read, when its content has
    no match of the pattern, and when opening it for writing fails.  It
    changes the file only when the lengths agree and the content read has a
    match: then either the write succeeds, and the file holds the text
    before the leftmost match, the block and the text after the match; or the
    write fails after the file has been emptied, and the file holds the
    characters written before the failure, none or some. *)
Theorem patcher_writes_only_on_match s :
  left_bounds (calculate_and_update_rust_file s) = left_bounds s
  /\ right_bounds (calculate_and_update_rust_file s) = right_bounds s
  /\ current_list (calculate_and_update_rust_file s) = current_list s
  /\ running (calculate_and_update_rust_file s) = running s
  /\ (List.length (left_bounds s) <> List.length (right_bounds s)
      \/ rust_file s = Missing
      \/ (exists err, rust_file s = Unreadable err)
      \/ (exists content w,
            rust_file s = Present content w /\ PyRe.search content = None)
      \/ (exists content err, rust_file s = Present content (Some (OpenFails err))) ->
      rust_file (calculate_and_update_rust_file s) = rust_file s
      /\ file_writes (calculate_and_update_rust_file s) = file_writes s)
  /\ ((rust_file (calculate_and_update_rust_file s) = rust_file s
       /\ file_writes (calculate_and_update_rust_file s) = file_writes s)
      \/ (exists content w before g rest,
            rust_file s = Present content w
            /\ List.length (left_bounds s) = List.length (right_bounds s)
            /\ PyRe.search content = Some (before, g, rest)
            /\ ((w = None
                 /\ rust_file (calculate_and_update_rust_file s)
                    = Present (before
                               ++ rust_array_string
                                    (final_x_positions (left_bounds s) (right_bounds s))
                               ++ rest) None
                 /\ file_writes (calculate_and_update_rust_file s)
                    = (file_writes s
                       ++ [(before
                            ++ rust_array_string
                                 (final_x_positions (left_bounds s) (right_bounds s))
                            ++ rest)%string])%list)
                \/ (exists err written,
                      w = Some (WriteFails err written)
                      /\ rust_file (calculate_and_update_rust_file s)
                         = Present
                             (substring 0 written
                                (before
                                 ++ rust_array_string
                                      (final_x_positions (left_bounds s)
                                                         (right_bounds s))
                                 ++ rest)) w
                      /\ file_writes (calculate_and_update_rust_file s)
                         = (file_writes s
                            ++ [substring 0 written
                                  (before
                                   ++ rust_array_string
                                        (final_x_positions (left_bounds s)
                                                           (right_bounds s))
                                   ++ rest)])%list)))).
Proof.
  split; [apply patcher_left_bounds|]. split; [apply patcher_right_bounds|].
  split; [apply patcher_current_list|]. split; [apply patcher_running|].
  split; [apply patcher_file_kept|apply patcher_file_outcome].
Qed.

(** Two failing writes on a file that holds the declaration: when opening
    for writing fails the file is kept; when the write fails after the file
    has been emptied, with nothing written, the file is left empty. *)
Lemma patcher_writes_only_on_match_witness :
  (rust_file (calculate_and_update_rust_file open_fails_state)
   = rust_file open_fails_state
   /\ file_writes (calculate_and_update_rust_file open_fails_state)
      = file_writes open_fails_state)
  /\ rust_file (calculate_and_update_rust_file write_fails_state)
     = Present "" (Some (WriteFails "No space left on device" 0)).
Proof.
  split.
  - apply (proj1 (proj2 (proj2 (proj2 (proj2
             (patcher_writes_only_on_match open_fails_state)))))).
    do 4 right. eexists. eexists. reflexivity.
  - vm_compute. reflexivity.
Defined.

(** The patcher on a file with a match. *)
Lemma patcher_success s content before g rest :
  rust_file s = Present content None ->
  List.length (left_bounds s) = List.length (right_bounds s) ->
  PyRe.search content = Some (before, g, rest) ->
  content = before ++ PyRe.declaration ++ g ++ PyRe.terminator ++ rest
  /\ rust_file (calculate_and_update_rust_file s)
     = Present (before
                ++ rust_array_string
                     (final_x_positions (left_bounds s) (right_bounds s))
                ++ rest) None
  /\ file_writes (calculate_and_update_rust_file s)
     = (file_writes s
        ++ [(before
            ++ rust_array_string
                 (final_x_positions (left_bounds s) (right_bounds s))
            ++ rest)%string])%list
  /\ stdout (calculate_and_update_rust_file s)
     = (stdout s
        ++ [block_header;
            rust_array_string (final_x_positions (left_bounds s) (right_bounds s));
            dash_line;
            "src/main.rs updated successfully."])%list.
Proof.
  intros Hf Hlen Hs. split; [apply (search_sound _ _ _ _ Hs)|].
  unfold calculate_and_update_rust_file.
  rewrite len_eqb, Hlen, Nat.eqb_refl. simp. rewrite Hf, Hs. simp.
  unfold PyRe.sub_first. rewrite Hs, <- !app_assoc. auto.
Qed.

(** X7: when the lengths agree and the file, readable and writable, has a
    match of the pattern, the patcher replaces the leftmost match by the
    block and keeps the text before and after it; this is its only write,
    and it ends by reporting the update. *)
Theorem patcher_replaces_first_block s content before g rest :
  rust_file s = Present content None ->
  List.length (left_bounds s) = List.length (right_bounds s) ->
  PyRe.search content = Some (before, g, rest) ->
  content = before ++ PyRe.declaration ++ g ++ PyRe.terminator ++ rest
  /\ rust_file (calculate_and_update_rust_file s)
     = Present (before
                ++ rust_array_string
                     (final_x_positions (left_bounds s) (right_bounds s))
                ++ rest) None
  /\ file_writes (calculate_and_update_rust_file s)
     = (file_writes s
        ++ [(before
            ++ rust_array_string
                 (final_x_positions (left_bounds s) (right_bounds s))
            ++ rest)%string])%list
  /\ stdout (calculate_and_update_rust_file s)
     = (stdout s
        ++ [block_header;
            rust_array_string (final_x_positions (left_bounds s) (right_bounds s));
            dash_line;
            "src/main.rs updated successfully."])%list.
Proof. apply patcher_success. Qed.

(** On [full_with_declaration]: the two averages 0.1875 and 0.625 replace
    the empty array, between the same two lines. *)
Lemma patcher_replaces_first_block_witness :
  rust_file (calculate_and_update_rust_file full_with_declaration)
  = Present ("// strings" ++ LF
             ++ "const UNSCALED_RELATIVE_X_POSITIONS: &[f32] = &[" ++ LF
             ++ "    1.87500000000000000e-01," ++ LF
             ++ "    6.25000000000000000e-01," ++ LF
             ++ "];" ++ LF
             ++ "fn main() {}") None.
Proof.
  assert (Hs : PyRe.search ("// strings" ++ LF
                    ++ "const UNSCALED_RELATIVE_X_POSITIONS: &[f32] = &[];" ++ LF
                    ++ "fn main() {}")
               = Some ("// strings" ++ LF, "", LF ++ "fn main() {}"))
    by (vm_compute; reflexivity).
  destruct (patcher_replaces_first_block full_with_declaration _ _ _ _
              eq_refl eq_refl Hs) as (_ & H & _).
  rewrite H. vm_compute. reflexivity.
Defined.

(** *** The file during a session *)

Lemma session_file_invariant f events : forall s,
  running s = true ->
  rust_file s = f -> file_writes s = [] ->
  (running (mainloop s events) = true ->
   rust_file (mainloop s events) = f /\ file_writes (mainloop s events) = [])
  /\ (List.length (file_writes (mainloop s events)) <= 1)%nat.
Proof.
  induction events as [|e rest IH]; intros s Hrun Hf Hw; simpl.
  - rewrite Hw. simpl. auto.
  - rewrite Hrun. destruct (dispatch_outcome s e) as [Hcall|Hno].
    + destruct Hcall as (s1 & lines & -> & _ & _ & Hf1 & Hw1 & _).
      rewrite mainloop_quit by reflexivity.
      cbn [master_quit running rust_file file_writes].
      split; [discriminate|].
      destruct (patcher_file_outcome s1)
        as [[_ E]|(? & ? & ? & ? & ? & _ & _ & _
                   & [(_ & _ & E)|(? & ? & _ & _ & E)])];
        rewrite E, Hw1, Hw; simpl; lia.
    + destruct Hno as (Hr & Hf1 & Hw1 & _). apply IH; congruence.
Qed.

(** X8: in a session the target file is written at most once, and not
    before the loop is quit: while the loop runs the file is as it was at
    start and nothing has been written. *)
Theorem session_writes_at_most_once path f events :
  (running (mainloop (init path f) events) = true ->
   rust_file (mainloop (init path f) events) = f
   /\ file_writes (mainloop (init path f) events) = [])
  /\ (List.length (file_writes (mainloop (init path f) events)) <= 1)%nat.
Proof. apply session_file_invariant; reflexivity. Qed.

(** During the collection of [one_right_collected], on a file with a
    declaration. *)
Lemma session_writes_at_most_once_witness :
  file_writes
    (mainloop (init "src/main.rs"
                    (Present "const UNSCALED_RELATIVE_X_POSITIONS: &[f32] = &[];" None))
              [Motion 100 800; Confirm; NextPhase; Motion 200 800])
  = [].
Proof.
  assert (H : running
                (mainloop (init "src/main.rs"
                    (Present "const UNSCALED_RELATIVE_X_POSITIONS: &[f32] = &[];" None))
                  [Motion 100 800; Confirm; NextPhase; Motion 200 800]) = true)
    by (vm_compute; reflexivity).
  exact (proj2 (proj1 (session_writes_at_most_once "src/main.rs" _ _) H)).
Defined.

(** *** The output at the end of a session *)

Lemma session_end_invariant events : forall s,
  running s = true ->
  running (mainloop s events) = false ->
  exists lines msg,
    stdout (mainloop s events)
    = (lines
       ++ [block_header;
           rust_array_string
             (final_x_positions (left_bounds (mainloop s events))
                                (right_bounds (mainloop s events)));
           dash_line; msg])%list.
Proof.
  induction events as [|e rest IH]; intros s Hrun Hend; simpl in *.
  - congruence.
  - rewrite Hrun in *. destruct (dispatch_outcome s e) as [Hcall|Hno].
    + destruct Hcall as (s1 & lines & E & Hlen & _).
      rewrite E in *. rewrite mainloop_quit by reflexivity.
      cbn [master_quit stdout left_bounds right_bounds].
      rewrite patcher_left_bounds, patcher_right_bounds.
      destruct (patcher_stdout_matched s1 Hlen) as (msg & Hout & _).
      exists (stdout s1), msg. exact Hout.
    + destruct Hno as (Hr & _). apply IH; [congruence|exact Hend].
Qed.

(** X9: when a session is over, the last four lines printed are the
    header, the block rendered from the averages of the final left and
    right bounds, the dashes, and one closing message. *)
Theorem session_ends_with_block path f events :
  running (mainloop (init path f) events) = false ->
  exists lines msg,
    stdout (mainloop (init path f) events)
    = (lines
       ++ [block_header;
           rust_array_string
             (final_x_positions (left_bounds (mainloop (init path f) events))
                                (right_bounds (mainloop (init path f) events)));
           dash_line; msg])%list.
Proof. apply session_end_invariant. reflexivity. Qed.

(** *** The match that is replaced *)

Lemma at_line_start_tail c b :
  at_line_start (String c b) ->
  (b = "" -> Ascii.eqb c (ascii_of_nat 10) = true) /\ at_line_start b.
Proof.
  intros [H|[b0 H]]; [discriminate|].
  destruct b0 as [|x b0]; simpl in H.
  - injection H as -> ->. split; [reflexivity|left; reflexivity].
  - injection H as _ ->. split.
    + intros E. destruct b0; discriminate.
    + right. exists b0. reflexivity.
Qed.

Lemma search_from_leftmost s : forall bol b g r b2 g2 r2,
  PyRe.search_from bol s = Some (b, g, r) ->
  s = b2 ++ PyRe.declaration ++ g2 ++ PyRe.terminator ++ r2 ->
  (b2 = "" -> bol = true) ->
  at_line_start b2 ->
  (String.length b <= String.length b2)%nat.
Proof.
  induction s as [|c s IH]; intros bol b g r b2 g2 r2 H Hs Hbol Hstart;
    cbn [PyRe.search_from] in H.
  - destruct bol; discriminate.
  - destruct (if bol then PyRe.match_here (String c s) else None) as [[g0 r0]|] eqn:E.
    + injection H as <- _ _. simpl. lia.
    + destruct (PyRe.search_from (Ascii.eqb c (ascii_of_nat 10)) s)
        as [[[b' g'] r']|] eqn:E'; [|discriminate].
      injection H as <- <- <-.
      destruct b2 as [|c2 b2].
      * exfalso. rewrite (Hbol eq_refl) in E. rewrite Hs in E.
        exact (match_here_complete g2 r2 E).
      * simpl in Hs. injection Hs as <- Hs.
        destruct (at_line_start_tail _ _ Hstart) as [Hnil Htail].
        simpl. apply le_n_S. exact (IH _ _ _ _ _ _ _ E' Hs Hnil Htail).
Qed.

Lemma split_terminator_shortest s : forall g r g2 r2,
  PyRe.split_terminator s = Some (g, r) ->
  s = g2 ++ PyRe.terminator ++ r2 ->
  (String.length g <= String.length g2)%nat.
Proof.
  induction s as [|c s IH]; intros g r g2 r2 H Hs.
  - simpl in H. discriminate.
  - cbn [PyRe.split_terminator] in H.
    destruct (PyRe.strip_prefix PyRe.terminator (String c s)) as [rest|] eqn:E.
    + injection H as <- _. simpl. lia.
    + destruct (PyRe.split_terminator s) as [[g' r']|] eqn:E'; [|discriminate].
      injection H as <- <-. destruct g2 as [|c2 g2].
      * exfalso. change ("" ++ PyRe.terminator ++ r2) with (PyRe.terminator ++ r2) in Hs.
        rewrite Hs, strip_prefix_app in E. discriminate.
      * simpl in Hs. injection Hs as _ Hs. simpl. apply le_n_S.
        exact (IH _ _ _ _ eq_refl Hs).
Qed.

Lemma search_from_group s : forall bol b g r,
  PyRe.search_from bol s = Some (b, g, r) ->
  PyRe.split_terminator (g ++ PyRe.terminator ++ r) = Some (g, r).
Proof.
  induction s as [|c s IH]; intros bol b g r H; cbn [PyRe.search_from] in H.
  - destruct bol; discriminate.
  - destruct (if bol then PyRe.match_here (String c s) else None) as [[g0 r0]|] eqn:E.
    + injection H as _ <- <-. destruct bol; [|discriminate].
      unfold PyRe.match_here in E.
      destruct (PyRe.strip_prefix PyRe.declaration (String c s)) as [body|];
        [|discriminate].
      rewrite <- (split_terminator_sound _ _ _ E). exact E.
    + destruct (PyRe.search_from (Ascii.eqb c (ascii_of_nat 10)) s)
        as [[[b' g'] r']|] eqn:E'; [|discriminate].
      injection H as _ <- <-. exact (IH _ _ _ _ E').
Qed.

(** X10: the match [re.search] returns is a match of the pattern, no match
    starts before it, and its group is the shortest possible: the block
    ends at the first terminator after the declaration. *)
Theorem search_finds_leftmost_shortest content before g rest :
  PyRe.search content = Some (before, g, rest) ->
  pattern_match content before g rest
  /\ (forall b2 g2 r2,
        pattern_match content b2 g2 r2 ->
        (String.length before <= String.length b2)%nat)
  /\ (forall g2 r2,
        g ++ PyRe.terminator ++ rest = g2 ++ PyRe.terminator ++ r2 ->
        (String.length g <= String.length g2)%nat).
Proof.
  intros H. split; [apply search_sound, H|]. split.
  - intros b2 g2 r2 [Hs Hstart].
    apply (search_from_leftmost content true before g rest b2 g2 r2 H Hs); auto.
  - intros g2 r2 Hs.
    exact (split_terminator_shortest _ _ _ _ _ (search_from_group _ _ _ _ _ H) Hs).
Qed.

(** A text with two blocks, the first with a bracket inside. *)
Lemma search_finds_leftmost_shortest_witness :
  pattern_match
    ("const UNSCALED_RELATIVE_X_POSITIONS: &[f32] = &[a[0]];" ++ LF
     ++ "const UNSCALED_RELATIVE_X_POSITIONS: &[f32] = &[2];")
    "" "a[0]"
    (LF ++ "const UNSCALED_RELATIVE_X_POSITIONS: &[f32] = &[2];").
Proof.
  assert (H : PyRe.search
                ("const UNSCALED_RELATIVE_X_POSITIONS: &[f32] = &[a[0]];" ++ LF
                 ++ "const UNSCALED_RELATIVE_X_POSITIONS: &[f32] = &[2];")
              = Some ("", "a[0]",
                      LF ++ "const UNSCALED_RELATIVE_X_POSITIONS: &[f32] = &[2];"))
    by (vm_compute; reflexivity).
  exact (proj1 (search_finds_leftmost_shortest _ _ _ _ H)).
Defined.

(** *** The characters of the block *)

Lemma mem_char_app c a b : mem_char c (a ++ b) = mem_char c a || mem_char c b.
Proof.
  induction a as [|x a IH]; simpl; [reflexivity|].
  rewrite IH, orb_assoc. reflexivity.
Qed.

Lemma chars_in_app al a b : chars_in al (a ++ b) = chars_in al a && chars_in al b.
Proof.
  induction a as [|x a IH]; simpl; [reflexivity|].
  rewrite IH, andb_assoc. reflexivity.
Qed.

Lemma chars_in_weaken al extra s :
  chars_in al s = true -> chars_in (al ++ extra) s = true.
Proof.
  induction s as [|x s IH]; simpl; [reflexivity|].
  intros H. apply andb_prop in H as [Hx Hs].
  rewrite mem_char_app, Hx, (IH Hs). reflexivity.
Qed.

Lemma chars_in_excludes al c s :
  chars_in al s = true -> mem_char c al = false -> mem_char c s = false.
Proof.
  intros Hs Hc. induction s as [|x s IH]; simpl in *; [reflexivity|].
  apply andb_prop in Hs as [Hx Hs]. rewrite (IH Hs), orb_false_r.
  destruct (Ascii.eqb_spec c x) as [->|]; [congruence|reflexivity].
Qed.

Lemma digit_in_alphabet c : is_digit c = true -> mem_char c format_alphabet = true.
Proof.
  destruct c as [[|] [|] [|] [|] [|] [|] [|] [|]]; intros H;
    try (vm_compute in H; discriminate H); reflexivity.
Qed.

Lemma digits_in_alphabet s : all_digits s = true -> chars_in format_alphabet s = true.
Proof.
  induction s as [|c s IH]; cbn [all_digits chars_in]; [reflexivity|].
  intros H. apply andb_prop in H as [Hc Hs].
  rewrite (digit_in_alphabet c Hc), (IH Hs). reflexivity.
Qed.

Lemma sign_in_alphabet sgn : chars_in format_alphabet (PyFormat.sign_string sgn) = true.
Proof. destruct sgn; reflexivity. Qed.

Lemma format_17e_alphabet x : chars_in format_alphabet (format_17e x) = true.
Proof.
  unfold format_17e, PyFormat.format_e. destruct (Prim2SF x) as [sgn|sgn| |sgn m e].
  - destruct sgn; vm_compute; reflexivity.
  - destruct sgn; reflexivity.
  - reflexivity.
  - destruct (PyFormat.sci_digits (PyFormat.numerator m e) (PyFormat.denominator e) 17)
      as [n k].
    unfold PyFormat.coefficient_string, PyFormat.exponent_string.
    rewrite !chars_in_app, sign_in_alphabet.
    rewrite !(digits_in_alphabet _ (digits_fixed_all_digits _ _)).
    destruct (k <? 0); reflexivity.
Qed.

Lemma array_line_alphabet pos : chars_in line_alphabet (array_line pos) = true.
Proof.
  unfold array_line. rewrite !chars_in_app.
  unfold line_alphabet at 2. rewrite (chars_in_weaken _ _ _ (format_17e_alphabet pos)).
  reflexivity.
Qed.

Lemma array_lines_alphabet positions :
  chars_in line_alphabet (concat_strings (map array_line positions)) = true.
Proof.
  induction positions as [|pos positions IH]; cbn [map concat_strings]; [reflexivity|].
  rewrite chars_in_app, array_line_alphabet, IH. reflexivity.
Qed.

(** X11: a number printed with [.17e] has no other characters than digits,
    the point, the letter e, the signs and the letters of nan and inf; so
    the block has no backslash, the one character that [re.sub] would not
    copy as it is from its replacement. *)
Theorem block_has_no_backslash positions :
  (forall x, chars_in format_alphabet (format_17e x) = true)
  /\ mem_char backslash (rust_array_string positions) = false.
Proof.
  split; [exact format_17e_alphabet|].
  rewrite rust_array_string_lines, !mem_char_app.
  rewrite (chars_in_excludes line_alphabet backslash _
             (array_lines_alphabet positions) eq_refl).
  reflexivity.
Qed.

(** *** Patching again *)

Lemma split_terminator_fresh g : forall rest,
  mem_char closing_bracket g = false ->
  PyRe.split_terminator (g ++ PyRe.terminator ++ rest) = Some (g, rest).
Proof.
  induction g as [|c g IH]; intros rest H.
  - reflexivity.
  - cbn [mem_char] in H. apply orb_false_elim in H as [Hc Hg].
    change (String c g ++ PyRe.terminator ++ rest)
      with (String c (g ++ PyRe.terminator ++ rest)).
    cbn [PyRe.split_terminator].
    assert (E : PyRe.strip_prefix PyRe.terminator
                  (String c (g ++ PyRe.terminator ++ rest)) = None).
    { unfold PyRe.terminator at 1. cbn [PyRe.strip_prefix].
      unfold closing_bracket in Hc. rewrite Hc. reflexivity. }
    rewrite E, (IH rest Hg). reflexivity.
Qed.

Lemma strip_prefix_shared D : forall a t body,
  PyRe.strip_prefix D (a ++ t) = Some body ->
  (String.length D <= String.length a)%nat ->
  exists u, a = D ++ u /\ body = u ++ t.
Proof.
  induction D as [|d D IH]; intros a t body H Hlen.
  - simpl in H. injection H as <-. exists a. auto.
  - destruct a as [|x a]; [simpl in Hlen; lia|].
    simpl in H. destruct (Ascii.eqb_spec d x) as [->|]; [|discriminate].
    destruct (IH a t body H) as (u & -> & ->); [simpl in Hlen; lia|].
    exists u. auto.
Qed.

Lemma search_from_here s g r :
  PyRe.match_here s = Some (g, r) -> PyRe.search_from true s = Some ("", g, r).
Proof. intros H. destruct s; cbn [PyRe.search_from]; rewrite H; reflexivity. Qed.

(** Replacing the text from the declaration on keeps the place of the
    leftmost match. *)
Lemma search_from_replaced s : forall bol b g r body' g' r',
  PyRe.search_from bol s = Some (b, g, r) ->
  PyRe.split_terminator body' = Some (g', r') ->
  PyRe.search_from bol (b ++ PyRe.declaration ++ body') = Some (b, g', r').
Proof.
  induction s as [|c s IH]; intros bol b g r body' g' r' H Hbody;
    cbn [PyRe.search_from] in H.
  - destruct bol; discriminate.
  - destruct (if bol then PyRe.match_here (String c s) else None) as [[g0 r0]|] eqn:E.
    + injection H as <- _ _. destruct bol; [|discriminate].
      apply search_from_here. unfold PyRe.match_here.
      change ("" ++ PyRe.declaration ++ body') with (PyRe.declaration ++ body').
      rewrite strip_prefix_app. exact Hbody.
    + destruct (PyRe.search_from (Ascii.eqb c (ascii_of_nat 10)) s)
        as [[[b' g1] r1]|] eqn:E'; [|discriminate].
      injection H as <- <- <-.
      change (String c b' ++ PyRe.declaration ++ body')
        with (String c (b' ++ PyRe.declaration ++ body')).
      cbn [PyRe.search_from].
      rewrite (IH _ _ _ _ _ _ _ E' Hbody).
      assert (Hnone : (if bol
                       then PyRe.match_here (String c (b' ++ PyRe.declaration ++ body'))
                       else None) = None).
      { destruct bol; [|reflexivity]. unfold PyRe.match_here.
        destruct (PyRe.strip_prefix PyRe.declaration
                    (String c (b' ++ PyRe.declaration ++ body'))) as [body|] eqn:En;
          [|reflexivity].
        exfalso.
        change (String c (b' ++ PyRe.declaration ++ body'))
          with (String c b' ++ PyRe.declaration ++ body') in En.
        rewrite <- string_app_assoc in En.
        destruct (strip_prefix_shared _ _ _ _ En) as (u & Ha & _).
        { rewrite string_length_app. lia. }
        destruct (search_from_sound _ _ _ _ _ E') as (Hs & _).
        assert (Ho : String c s
                     = PyRe.declaration ++ (u ++ g1) ++ PyRe.terminator ++ r1).
        { rewrite Hs.
          change (String c (b' ++ PyRe.declaration ++ g1 ++ PyRe.terminator ++ r1))
            with (String c b' ++ PyRe.declaration ++ g1 ++ PyRe.terminator ++ r1).
          rewrite <- (string_app_assoc (String c b')), Ha.
          rewrite !string_app_assoc. reflexivity. }
        rewrite Ho in E. exact (match_here_complete _ _ E). }
      rewrite Hnone. reflexivity.
Qed.

Lemma block_group positions rest :
  PyRe.split_terminator
    ((LF ++ concat_strings (map array_line positions)) ++ PyRe.terminator ++ rest)
  = Some (LF ++ concat_strings (map array_line positions), rest).
Proof.
  apply split_terminator_fresh. rewrite mem_char_app.
  rewrite (chars_in_excludes line_alphabet closing_bracket _
             (array_lines_alphabet positions) eq_refl).
  reflexivity.
Qed.

Lemma block_as_match positions rest :
  rust_array_string positions ++ rest
  = PyRe.declaration
    ++ (LF ++ concat_strings (map array_line positions)) ++ PyRe.terminator ++ rest.
Proof.
  rewrite rust_array_string_lines. unfold array_open, PyRe.declaration, PyRe.terminator.
  rewrite !string_app_assoc. reflexivity.
Qed.

(** X12: patching is idempotent.  After a successful patch, the block just
    written is the leftmost match of the new content, with the same text
    before and after it; so a second call of the patcher on the same bounds
    writes the same content again. *)
Theorem patching_twice_is_patching_once s content before g rest :
  rust_file s = Present content None ->
  List.length (left_bounds s) = List.length (right_bounds s) ->
  PyRe.search content = Some (before, g, rest) ->
  PyRe.search
    (before
     ++ rust_array_string (final_x_positions (left_bounds s) (right_bounds s))
     ++ rest)
  = Some (before,
          LF ++ concat_strings
                  (map array_line (final_x_positions (left_bounds s) (right_bounds s))),
          rest)
  /\ rust_file (calculate_and_update_rust_file (calculate_and_update_rust_file s))
     = rust_file (calculate_and_update_rust_file s).
Proof.
  intros Hf Hlen Hs.
  set (block := rust_array_string (final_x_positions (left_bounds s) (right_bounds s))).
  assert (Hnew : PyRe.search (before ++ block ++ rest)
                 = Some (before,
                         LF ++ concat_strings
                                 (map array_line
                                      (final_x_positions (left_bounds s) (right_bounds s))),
                         rest)).
  { unfold block. rewrite block_as_match.
    apply (search_from_replaced content true before g rest _ _ _ Hs).
    apply block_group. }
  split; [exact Hnew|].
  destruct (patcher_success s content before g rest Hf Hlen Hs) as (_ & Hf1 & _).
  fold block in Hf1.
  set (s1 := calculate_and_update_rust_file s) in *.
  assert (Hl1 : left_bounds s1 = left_bounds s) by apply patcher_left_bounds.
  assert (Hr1 : right_bounds s1 = right_bounds s) by apply patcher_right_bounds.
  assert (Hlen1 : List.length (left_bounds s1) = List.length (right_bounds s1))
    by (rewrite Hl1, Hr1; exact Hlen).
  destruct (patcher_success s1 _ _ _ _ Hf1 Hlen1 Hnew) as (_ & Hf2 & _).
  rewrite Hf2, Hf1, Hl1, Hr1. reflexivity.
Qed.

(** On [full_with_declaration]. *)
Lemma patching_twice_is_patching_once_witness :
  rust_file (calculate_and_update_rust_file
               (calculate_and_update_rust_file full_with_declaration))
  = rust_file (calculate_and_update_rust_file full_with_declaration).
Proof.
  assert (Hs : PyRe.search ("// strings" ++ LF
                    ++ "const UNSCALED_RELATIVE_X_POSITIONS: &[f32] = &[];" ++ LF
                    ++ "fn main() {}")
               = Some ("// strings" ++ LF, "", LF ++ "fn main() {}"))
    by (vm_compute; reflexivity).
  exact (proj2 (patching_twice_is_patching_once full_with_declaration _ _ _ _
                  eq_refl eq_refl Hs)).
Defined.

(** *** Whole sessions *)

Lemma motion_sample s x w :
  0 < w -> mouse_x_percentage (on_mouse_move s x w) = int_truediv x w.
Proof.
  intros Hw. unfold on_mouse_move. apply Z.gtb_lt in Hw. rewrite Hw. reflexivity.
Qed.

(** Confirming a series of samples while the left bounds are collected adds
    them at the end of the list, in order. *)
Lemma confirm_events_left points : forall s,
  current_list s = LeftBounds ->
  running s = true ->
  Forall (fun p => 0 < snd p) points ->
  left_bounds (mainloop s (confirm_events points))
  = (left_bounds s ++ confirmed_samples points)%list
  /\ right_bounds (mainloop s (confirm_events points)) = right_bounds s
  /\ current_list (mainloop s (confirm_events points)) = LeftBounds
  /\ running (mainloop s (confirm_events points)) = true.
Proof.
  induction points as [|[x w] points IH]; intros s Hc Hrun Hw.
  - simpl. rewrite app_nil_r. auto.
  - inversion Hw as [|? ? Hw0 Hw']; subst. simpl in Hw0.
    simpl confirm_events. simpl mainloop. rewrite Hrun.
    destruct (on_mouse_move_frame s x w) as (Hl1 & Hr1 & Hc1 & Hrun1 & _).
    rewrite Hrun1, Hrun.
    pose proof (motion_sample s x w Hw0) as Hm.
    set (s1 := on_mouse_move s x w) in *.
    assert (Hc1' : current_list s1 = LeftBounds) by congruence.
    destruct (confirm_left s1 Hc1') as (Hl2 & Hr2 & Hc2 & Hrun2).
    destruct (IH (on_key_press s1 "space") Hc2) as (Hl3 & Hr3 & Hc3 & Hrun3);
      [congruence|exact Hw'|].
    rewrite Hl3, Hr3, Hc3, Hrun3, Hl2, Hr2, Hm, Hl1, Hr1.
    change (confirmed_samples ((x, w) :: points))
      with (int_truediv x w :: confirmed_samples points).
    rewrite <- app_assoc. auto.
Qed.

(** X13: a whole session.  From the start, confirming the left edges of
    [n >= 1] strings, pressing Next-phase and confirming [n] right edges
    collects the left samples in order and the right samples in reverse
    order, quits the loop, and ends the output with the block of the
    averages of the two lists. *)
Theorem whole_session path f lefts rights :
  Forall (fun p => 0 < snd p) lefts ->
  Forall (fun p => 0 < snd p) rights ->
  List.length rights = List.length lefts ->
  lefts <> [] ->
  left_bounds (mainloop (init path f)
                        (confirm_events lefts ++ NextPhase :: confirm_events rights))
  = confirmed_samples lefts
  /\ right_bounds (mainloop (init path f)
                            (confirm_events lefts ++ NextPhase :: confirm_events rights))
     = rev (confirmed_samples rights)
  /\ running (mainloop (init path f)
                       (confirm_events lefts ++ NextPhase :: confirm_events rights))
     = false
  /\ exists lines msg,
       stdout (mainloop (init path f)
                        (confirm_events lefts ++ NextPhase :: confirm_events rights))
       = (lines
          ++ [block_header;
              rust_array_string
                (final_x_positions (confirmed_samples lefts)
                                   (rev (confirmed_samples rights)));
              dash_line; msg])%list.
Proof.
  intros Hwl Hwr Hlen Hne.
  set (events := (confirm_events lefts ++ NextPhase :: confirm_events rights)%list).
  destruct (confirm_events_left lefts (init path f) eq_refl eq_refl Hwl)
    as (Hl1 & Hr1 & Hc1 & Hrun1).
  cbn [init left_bounds right_bounds app] in Hl1, Hr1.
  set (s1 := mainloop (init path f) (confirm_events lefts)) in *.
  destruct (next_phase_left s1 Hc1) as (Hl2 & Hr2 & Hc2 & Hrun2).
  set (s2 := on_key_press s1 "Return") in *.
  assert (Hn : List.length (confirmed_samples lefts) = List.length lefts)
    by apply length_map.
  destruct (confirm_events_right rights s2 Hc2) as (Hr3 & Hl3).
  { congruence. }
  { exact Hwr. }
  { rewrite Hr2, Hr1, Hl2, Hl1, Hn. simpl. lia. }
  assert (Hs : mainloop (init path f) events = mainloop s2 (confirm_events rights)).
  { unfold events. rewrite mainloop_app. fold s1. simpl mainloop. rewrite Hrun1.
    reflexivity. }
  rewrite Hr2, Hr1, app_nil_r in Hr3. rewrite Hl2, Hl1 in Hl3.
  assert (Hend : running (mainloop (init path f) events) = false).
  { pose proof (mainloop_completion events (init path f)
                  (init_invariant path f) (init_completion path f)) as H.
    unfold completion_invariant in H.
    destruct (running (mainloop (init path f) events)); [|reflexivity].
    exfalso. rewrite Hs, Hl3, Hr3 in H.
    destruct H as [E|E].
    - apply (mainloop_right_phase _ _ Hc2).
    - destruct lefts; [contradiction|discriminate].
    - rewrite length_rev, Hn in E.
      assert (List.length (confirmed_samples rights) = List.length rights)
        by apply length_map.
      lia. }
  split; [rewrite Hs; exact Hl3|]. split; [rewrite Hs; exact Hr3|].
  split; [exact Hend|].
  destruct (session_end_invariant events (init path f) eq_refl Hend)
    as (lines & msg & Hout).
  exists lines, msg. rewrite Hout, Hs, Hl3, Hr3. reflexivity.
Qed.

(** The session [two_string_session]: the bounds are [0.3, 0.7] on the left
    and [0.3, 0.7] on the right, and the loop is quit. *)
Lemma whole_session_witness :
  left_bounds (mainloop (init "src/main.rs" Missing) two_string_session)
  = confirmed_samples left_to_right_points
  /\ right_bounds (mainloop (init "src/main.rs" Missing) two_string_session)
     = rev (confirmed_samples right_to_left_points)
  /\ running (mainloop (init "src/main.rs" Missing) two_string_session) = false.
Proof.
  assert (Hwl : Forall (fun p : Z * Z => 0 < snd p) left_to_right_points)
    by (repeat constructor).
  assert (Hwr : Forall (fun p : Z * Z => 0 < snd p) right_to_left_points)
    by (repeat constructor).
  assert (Hne : left_to_right_points <> []) by discriminate.
  destruct (whole_session "src/main.rs" Missing left_to_right_points
              right_to_left_points Hwl Hwr eq_refl Hne) as (H1 & H2 & H3 & _).
  split; [exact H1|]. split; [exact H2|exact H3].
Defined.

(** The session [two_string_session]. *)
Lemma session_ends_with_block_witness :
  exists lines msg,
    stdout (mainloop (init "src/main.rs" Missing) two_string_session)
    = (lines
       ++ [block_header;
           rust_array_string
             (final_x_positions
                (left_bounds (mainloop (init "src/main.rs" Missing) two_string_session))
                (right_bounds (mainloop (init "src/main.rs" Missing) two_string_session)));
           dash_line; msg])%list.
Proof.
  assert (H : running (mainloop (init "src/main.rs" Missing) two_string_session) = false)
    by (vm_compute; reflexivity).
  exact (session_ends_with_block "src/main.rs" Missing two_string_session H).
Defined.

(** *** Undo *)

Lemma undo_events_left n : forall s l xs,
  current_list s = LeftBounds ->
  running s = true ->
  left_bounds s = (l ++ xs)%list ->
  List.length xs = n ->
  left_bounds (mainloop s (undo_events n)) = l
  /\ right_bounds (mainloop s (undo_events n)) = right_bounds s.
Proof.
  induction n as [|n IH]; intros s l xs Hc Hrun Hl Hn.
  - destruct xs; [|discriminate]. rewrite app_nil_r in Hl. simpl. auto.
  - destruct (exists_last (l := xs)) as (xs' & x & ->).
    { intros ->. discriminate. }
    rewrite length_app in Hn. simpl in Hn.
    assert (Hp : PyList.pop (left_bounds s) = Some (x, (l ++ xs')%list)).
    { rewrite Hl, app_assoc. apply pop_append. }
    destruct (undo_left s x _ Hc Hp) as (Hl' & Hr' & Hc' & Hrun').
    unfold undo_events. simpl repeat. simpl mainloop. rewrite Hrun.
    simpl dispatch.
    destruct (IH (on_key_press s "BackSpace") l xs' Hc') as [Hl2 Hr2];
      [congruence|exact Hl'|lia|].
    fold (undo_events n). rewrite Hl2, Hr2, Hr'. auto.
Qed.

(** X14: while the left bounds are collected, as many Undo as Confirm
    restore the lists: confirming any series of samples and then pressing
    Undo once for each of them leaves the left bounds, and the right
    bounds, as they were. *)
Theorem undo_all_left_confirms s points :
  current_list s = LeftBounds ->
  running s = true ->
  Forall (fun p => 0 < snd p) points ->
  left_bounds (mainloop s (confirm_events points ++ undo_events (List.length points)))
  = left_bounds s
  /\ right_bounds (mainloop s (confirm_events points
                                ++ undo_events (List.length points)))
     = right_bounds s.
Proof.
  intros Hc Hrun Hw. rewrite mainloop_app.
  destruct (confirm_events_left points s Hc Hrun Hw) as (Hl & Hr & Hc' & Hrun').
  destruct (undo_events_left (List.length points) _ (left_bounds s)
              (confirmed_samples points) Hc' Hrun' Hl) as [Hl2 Hr2].
  { apply length_map. }
  rewrite Hl2, Hr2, Hr. auto.
Qed.

(** From the start: two samples confirmed and undone. *)
Lemma undo_all_left_confirms_witness :
  left_bounds (mainloop (init "src/main.rs" Missing)
                        (confirm_events left_to_right_points ++ undo_events 2))
  = [].
Proof.
  assert (Hw : Forall (fun p : Z * Z => 0 < snd p) left_to_right_points)
    by (repeat constructor).
  exact (proj1 (undo_all_left_confirms (init "src/main.rs" Missing)
                  left_to_right_points eq_refl eq_refl Hw)).
Defined.

(** X15: while the right bounds are collected, Undo after a Confirm that
    did not complete the collection removes the LAST right bound of the list
    after the insertion, which is the bound collected first.  When the list
    was empty before the Confirm, that is the sample just inserted, and the
    list is empty again.  When the list was not empty, the sample just
    inserted stays at the head and the oldest right bound is lost: the
    Confirm is not taken back.  The left bounds are not touched. *)
Theorem undo_right_removes_last s :
  current_list s = RightBounds ->
  (S (List.length (right_bounds s)) < List.length (left_bounds s))%nat ->
  (right_bounds s = [] ->
   right_bounds (dispatch (dispatch s Confirm) Undo) = [])
  /\ (forall l y,
        right_bounds s = (l ++ [y])%list ->
        right_bounds (dispatch (dispatch s Confirm) Undo)
        = mouse_x_percentage s :: l)
  /\ left_bounds (dispatch (dispatch s Confirm) Undo) = left_bounds s.
Proof.
  intros Hc Hlt.
  assert (Hr := undo_after_confirm_right s Hc ltac:(lia)).
  split; [|split].
  - intros E. rewrite Hr, E. reflexivity.
  - intros l y E. rewrite Hr, E.
    change (l ++ [y])%list with (PyList.append l y). rewrite pop_append.
    reflexivity.
  - destruct (dispatch_right_phase s Confirm Hc) as [Hc1 Hl1].
    destruct (dispatch_right_phase _ Undo Hc1) as [_ Hl2]. congruence.
Qed.

(** On [two_left_then_switch], with no right bound yet, Confirm then Undo
    gives the empty list back; on [one_right_collected], right bounds
    [0.25] and the pointer at 0.75, the new sample 0.75 stays and 0.25 is
    lost. *)
Lemma undo_right_removes_last_witness :
  right_bounds (dispatch (dispatch two_left_then_switch Confirm) Undo) = []
  /\ right_bounds (dispatch (dispatch one_right_collected Confirm) Undo)
     = [0.75%float].
Proof.
  split.
  - assert (Hc : current_list two_left_then_switch = RightBounds)
      by (vm_compute; reflexivity).
    assert (Hlt : (S (List.length (right_bounds two_left_then_switch))
                   < List.length (left_bounds two_left_then_switch))%nat)
      by (vm_compute; repeat constructor).
    assert (He : right_bounds two_left_then_switch = [])
      by (vm_compute; reflexivity).
    exact (proj1 (undo_right_removes_last two_left_then_switch Hc Hlt) He).
  - assert (Hc : current_list one_right_collected = RightBounds)
      by (vm_compute; reflexivity).
    assert (Hlt : (S (List.length (right_bounds one_right_collected))
                   < List.length (left_bounds one_right_collected))%nat)
      by (vm_compute; repeat constructor).
    assert (He : right_bounds one_right_collected = ([] ++ [0.25%float])%list)
      by (vm_compute; reflexivity).
    assert (Hm : mouse_x_percentage one_right_collected = 0.75%float)
      by (vm_compute; reflexivity).
    rewrite <- Hm.
    exact (proj1 (proj2 (undo_right_removes_last one_right_collected Hc Hlt))
             [] 0.25%float He).
Defined.

(** *** The closing message *)

Lemma patcher_closing s :
  List.length (left_bounds s) = List.length (right_bounds s) ->
  stdout (calculate_and_update_rust_file s)
  = (stdout s
     ++ [block_header;
         rust_array_string (final_x_positions (left_bounds s) (right_bounds s));
         dash_line;
         closing_message (rust_file_path s) (rust_file s)])%list.
Proof.
  intros H. unfold calculate_and_update_rust_file, closing_message.
  rewrite len_eqb, H, Nat.eqb_refl. simp.
  destruct (rust_file s) as [|err|content [[werr|werr written]|]]; simp;
    try destruct (PyRe.search content); simp;
    rewrite <- !app_assoc; reflexivity.
Qed.

Lemma on_key_press_path s k :
  rust_file_path (on_key_press s k) = rust_file_path s.
Proof.
  destruct (on_key_press_cases s k) as [E|[E|[E|E]]]; rewrite E; clear E.
  - unfold on_key_press, set_current, get_current. simp.
    destruct (current_list s) eqn:Hc; simp; rewrite ?Hc; simp; [auto|].
    destruct (PyList.len (right_bounds s) <? PyList.len (left_bounds s)); simp;
      [|auto].
    destruct (PyList.len _ =? PyList.len _); simp; [|auto].
    match goal with
    | |- context [calculate_and_update_rust_file ?s1] =>
        destruct (patcher_sample s1) as (_ & _ & _ & ->)
    end. reflexivity.
  - unfold on_key_press, set_current, get_current. simp. rewrite undo_guard.
    destruct (current_list s) eqn:Hc.
    + destruct (left_bounds s) as [|a t]; [auto|].
      destruct (pop_nonempty (a :: t) eq_refl) as (x & l & ->).
      simp. rewrite Hc. reflexivity.
    + destruct (right_bounds s) as [|a t]; [auto|].
      destruct (pop_nonempty (a :: t) eq_refl) as (x & l & ->).
      simp. rewrite Hc. reflexivity.
  - unfold on_key_press. simp. destruct (current_list s); reflexivity.
  - reflexivity.
Qed.

Lemma dispatch_path s e : rust_file_path (dispatch s e) = rust_file_path s.
Proof.
  destruct e as [k|x w]; simpl dispatch; [apply on_key_press_path|].
  unfold on_mouse_move. destruct (w >? 0); reflexivity.
Qed.

Lemma session_closing_invariant path f events : forall s,
  running s = true ->
  rust_file s = f -> rust_file_path s = path ->
  running (mainloop s events) = false ->
  exists lines,
    stdout (mainloop s events) = (lines ++ [closing_message path f])%list.
Proof.
  induction events as [|e rest IH]; intros s Hrun Hf Hp Hend; simpl in *.
  - congruence.
  - rewrite Hrun in *. pose proof (dispatch_path s e) as Hpath.
    destruct (dispatch_outcome s e) as [Hcall|Hno].
    + destruct Hcall as (s1 & lines & E & Hlen & _ & Hf1 & _).
      rewrite E in *. rewrite mainloop_quit by reflexivity.
      cbn [master_quit stdout rust_file_path] in *.
      destruct (patcher_sample s1) as (_ & _ & _ & Hp1).
      rewrite (patcher_closing s1 Hlen).
      exists (stdout s1 ++ [block_header;
                rust_array_string (final_x_positions (left_bounds s1) (right_bounds s1));
                dash_line])%list.
      rewrite <- app_assoc. simpl. repeat f_equal; congruence.
    + destruct Hno as (Hr & Hf1 & _). apply IH; congruence.
Qed.

(** X16: when a session is over, the last line printed tells what became of
    the target file: not found at its path, the error of reading it, the
    block not found in it, the error of writing it, or the update, in that
    order of precedence, for the file as it was when the session started. *)
Theorem session_closing_message path f events :
  running (mainloop (init path f) events) = false ->
  exists lines,
    stdout (mainloop (init path f) events)
    = (lines ++ [closing_message path f])%list.
Proof. apply session_closing_invariant; reflexivity. Qed.

(** The session [two_string_session], without a target file. *)
Lemma session_closing_message_witness :
  exists lines,
    stdout (mainloop (init "src/main.rs" Missing) two_string_session)
    = (lines ++ ["Error: src/main.rs not found at src/main.rs."])%list.
Proof.
  assert (H : running (mainloop (init "src/main.rs" Missing) two_string_session) = false)
    by (vm_compute; reflexivity).
  exact (session_closing_message "src/main.rs" Missing two_string_session H).
Defined.

(** *** Where the bounds come from *)

Lemma pop_last {A} (l : list A) : forall x l',
  PyList.pop l = Some (x, l') -> l = (l' ++ [x])%list.
Proof.
  induction l as [|a t IH]; intros x l' H; simpl in H; [discriminate|].
  destruct (PyList.pop t) as [[y t']|] eqn:E.
  - injection H as <- <-. simpl. f_equal. apply IH. reflexivity.
  - injection H as <- <-. apply pop_none in E. subst t. reflexivity.
Qed.

Lemma recorded_more done e v : recorded done v -> recorded (done ++ [e]) v.
Proof.
  intros [H|(x & w & Hin & Hw & Hv)]; [left; exact H|].
  right. exists x, w. split; [apply in_or_app; left; exact Hin|auto].
Qed.

Lemma dispatch_recorded done s e :
  all_recorded done s -> all_recorded (done ++ [e]) (dispatch s e).
Proof.
  intros (Hm & Hl & Hr).
  assert (Hm' : recorded (done ++ [e]) (mouse_x_percentage s))
    by apply recorded_more, Hm.
  assert (Hl' : Forall (recorded (done ++ [e])) (left_bounds s))
    by (eapply Forall_impl; [|exact Hl]; intros v; apply recorded_more).
  assert (Hr' : Forall (recorded (done ++ [e])) (right_bounds s))
    by (eapply Forall_impl; [|exact Hr]; intros v; apply recorded_more).
  clear Hm Hl Hr. unfold all_recorded.
  destruct e as [k|x w]; simpl dispatch.
  - destruct (on_key_press_sample s k) as [-> _]. split; [exact Hm'|].
    destruct (on_key_press_cases s k) as [E|[E|[E|E]]]; rewrite E; clear E.
    + destruct (current_list s) eqn:Hc.
      * destruct (confirm_left s Hc) as (-> & -> & _).
        split; [|exact Hr']. apply Forall_app. split; [exact Hl'|].
        constructor; [exact Hm'|constructor].
      * destruct (Nat.lt_ge_cases (List.length (right_bounds s))
                                  (List.length (left_bounds s))) as [Hlt|Hge].
        -- destruct (confirm_right s Hc Hlt) as (-> & -> & _).
           split; [exact Hl'|]. constructor; assumption.
        -- rewrite (confirm_right_full s Hc Hge). auto.
    + destruct (current_list s) eqn:Hc.
      * destruct (PyList.pop (left_bounds s)) as [[v l]|] eqn:Hp.
        -- destruct (undo_left s v l Hc Hp) as (-> & -> & _).
           split; [|exact Hr']. apply pop_last in Hp. rewrite Hp in Hl'.
           apply Forall_app in Hl'. apply Hl'.
        -- rewrite undo_empty; [auto|].
           unfold get_current. rewrite Hc. apply pop_none, Hp.
      * destruct (PyList.pop (right_bounds s)) as [[v l]|] eqn:Hp.
        -- destruct (undo_right s v l Hc Hp) as (-> & -> & _).
           split; [exact Hl'|]. apply pop_last in Hp. rewrite Hp in Hr'.
           apply Forall_app in Hr'. apply Hr'.
        -- rewrite undo_empty; [auto|].
           unfold get_current. rewrite Hc. apply pop_none, Hp.
    + destruct (current_list s) eqn:Hc.
      * destruct (next_phase_left s Hc) as (-> & -> & _). auto.
      * rewrite (next_phase_right s Hc). auto.
    + auto.
  - destruct (on_mouse_move_frame s x w) as (-> & -> & _).
    split; [|auto]. unfold on_mouse_move.
    destruct (Z.gtb_spec w 0) as [Hw|Hw]; [|exact Hm'].
    right. exists x, w. split; [apply in_or_app; right; left; reflexivity|].
    split; [lia|reflexivity].
Qed.

Lemma mainloop_recorded events : forall done s,
  all_recorded done s -> all_recorded (done ++ events) (mainloop s events).
Proof.
  induction events as [|e rest IH]; intros done s H.
  - rewrite app_nil_r. exact H.
  - simpl mainloop. destruct (running s).
    + replace (done ++ e :: rest)%list with ((done ++ [e]) ++ rest)%list
        by (rewrite <- app_assoc; reflexivity).
      apply IH, dispatch_recorded, H.
    + destruct H as (Hm & Hl & Hr).
      assert (Hmore : forall v, recorded done v -> recorded (done ++ e :: rest) v).
      { intros v [Hv|(x & w & Hin & Hw & Hv)]; [left; exact Hv|].
        right. exists x, w. split; [apply in_or_app; left; exact Hin|auto]. }
      split; [apply Hmore, Hm|].
      split; eapply Forall_impl; eauto.
Qed.

(** X17: every bound collected in a session, left or right, is a sample
    recorded by the pointer: the value [event.x / winfo_width()] of one of
    the motions of the session in a window with a width, or the initial
    sample 0.0.  The handlers never store any other number. *)
Theorem bounds_are_recorded_samples path f events :
  Forall (recorded events) (left_bounds (mainloop (init path f) events))
  /\ Forall (recorded events) (right_bounds (mainloop (init path f) events)).
Proof.
  assert (H : all_recorded [] (init path f)).
  { split; [left; reflexivity|]. split; constructor. }
  destruct (mainloop_recorded events [] (init path f) H) as (_ & Hl & Hr).
  auto.
Qed.
